(** * User and privilege administration page (pages/14_Users.py)

    A shallow embedding of the MySQL administration page: the two
    identifier sanitizers, the admin executor [exec_admin], the grant
    reader [get_grants] and the five button handlers of the page, followed
    by the properties of the statement texts they send to the store.

    Python strings are modelled as [string]; a character outside ASCII is a
    sequence of bytes above 127, which both sanitizers drop exactly as
    [re.sub] drops the code point they encode. *)

From Stdlib Require Import String Ascii List Bool Arith Lia.
Import ListNotations.

Local Open Scope string_scope.
Local Open Scope list_scope.

(** ** Python primitives used by the page *)

Module Py.

(** Truth value of a [str]: only the empty string is false. *)
Definition truthy (s : string) : bool :=
  match s with
  | EmptyString => false
  | String _ _ => true
  end.

(** [a or b] on strings. *)
Definition or_ (a b : string) : string :=
  if truthy a then a else b.

(** [s.startswith(p)]. *)
Definition startswith (s p : string) : bool := String.prefix p s.

(** [sep.join(l)]. *)
Fixpoint join (sep : string) (l : list string) : string :=
  match l with
  | [] => ""
  | [x] => x
  | x :: rest => (x ++ sep ++ join sep rest)%string
  end.

(** [re.sub(r"[^...]", "", s)] for a negated character class: every
    character that the class [keep] does not list is replaced by the
    empty string, the others stay where they are. *)
Fixpoint re_sub_strip (keep : ascii -> bool) (s : string) : string :=
  match s with
  | EmptyString => EmptyString
  | String c rest =>
      if keep c then String c (re_sub_strip keep rest)
      else re_sub_strip keep rest
  end.

(** A range [lo-hi] of a character class. *)
Definition in_range (lo hi c : ascii) : bool :=
  Nat.leb (nat_of_ascii lo) (nat_of_ascii c)
  && Nat.leb (nat_of_ascii c) (nat_of_ascii hi).

End Py.

(** ** Identifier sanitizers *)

(** The class [a-zA-Z0-9_] of [sanitize_user]. *)
Definition user_class (c : ascii) : bool :=
  (Py.in_range "a" "z" c || Py.in_range "A" "Z" c || Py.in_range "0" "9" c
   || Ascii.eqb c "_")%char.

(** The class [a-zA-Z0-9_%.:-] of [sanitize_host]. *)
Definition host_class (c : ascii) : bool :=
  (Py.in_range "a" "z" c || Py.in_range "A" "Z" c || Py.in_range "0" "9" c
   || Ascii.eqb c "_" || Ascii.eqb c "%" || Ascii.eqb c "." || Ascii.eqb c ":"
   || Ascii.eqb c "-")%char.

Definition sanitize_user (s : string) : string := Py.re_sub_strip user_class s.

Definition sanitize_host (s : string) : string := Py.re_sub_strip host_class s.

(** The two alphabets, written out character by character. *)
Definition name_alphabet : string :=
  "ABCDEFGHIJKLMNOPQRSTUVWXYZabcdefghijklmnopqrstuvwxyz0123456789_".

Definition host_alphabet : string :=
  "ABCDEFGHIJKLMNOPQRSTUVWXYZabcdefghijklmnopqrstuvwxyz0123456789_%.:-".

(** [chars_in alphabet s]: every character of [s] occurs in [alphabet]. *)
Definition chars_in (alphabet s : string) : Prop :=
  forall c,
    In c (list_ascii_of_string s) -> In c (list_ascii_of_string alphabet).

(** [chars_inb] decides [chars_in]. *)
Definition mem_ascii (c : ascii) (alphabet : string) : bool :=
  existsb (Ascii.eqb c) (list_ascii_of_string alphabet).

Definition chars_inb (alphabet s : string) : bool :=
  forallb (fun c => mem_ascii c alphabet) (list_ascii_of_string s).

(** [subseq s t]: [s] is obtained from [t] by deleting characters, the
    remaining ones keeping their relative order. *)
Inductive subseq : string -> string -> Prop :=
| subseq_nil : subseq "" ""
| subseq_skip c s t : subseq s t -> subseq s (String c t)
| subseq_keep c s t : subseq s t -> subseq (String c s) (String c t).

#[local] Hint Constructors subseq : core.

(** ** The store, the sessions and what a handler leaves behind *)

(** A result row: the mapping from column to value of a dictionary cursor,
    in column order. *)
Definition row : Type := list (string * string).

(** [pd.DataFrame(rows)]; [df_empty] is its [.empty] attribute: no row, or
    no column at all. *)
Definition DataFrame : Type := list row.

Definition df_empty (df : DataFrame) : bool :=
  forallb (fun r : row => match r with [] => true | _ => false end) df.

(** What [cur.execute] does on a session: the statement returns, leaving
    the session's pending state and the rows [fetchall] would give, or it
    raises, leaving pending changes behind and the text [str(e)]. *)
Inductive outcome (DB : Type) : Type :=
| Returned (pending : DB) (rows : list row)
| Raised (dirty : DB) (msg : string).

Arguments Returned {DB} pending rows.
Arguments Raised {DB} dirty msg.

(** One entry of the trace of a run: a statement handed to [cur.execute]
    with its argument tuple ([None] when [execute] got no second argument)
    and the error it raised, if any; or a read handed to [run_query]. *)
Inductive event : Type :=
| Executed (sql : string) (args : option (list string)) (err : option string)
| Queried (sql : string).

(** What the page shows. *)
Inductive ui : Type :=
| StError (msg : string)
| StSuccess (msg : string)
| StWarning (msg : string)
| StInfo (msg : string)
| StDataframe (df : DataFrame).

Section Page.

(** The committed state of the store. *)
Variable DB : Type.

(** The store's reaction to a statement run on a session whose pending
    state is given. *)
Variable execute : DB -> string -> option (list string) -> outcome DB.

(** [db.run_query] is not part of the sources: it is taken as a
    parameter, a read of the store that returns rows or raises. *)
Variable run_query : DB -> string -> list row + string.

(** A session: what the store has committed and what the session has
    pending. *)
Record connection : Type := { committed : DB; pending : DB }.

Definition get_connection (db : DB) : connection :=
  {| committed := db; pending := db |}.

Definition commit (conn : connection) : connection :=
  {| committed := pending conn; pending := pending conn |}.

Definition rollback (conn : connection) : connection :=
  {| committed := committed conn; pending := committed conn |}.

(** Closing a session drops what is pending: the store keeps what was
    committed. *)
Definition close (conn : connection) : DB := committed conn.

(** A computation of the page: from the store it starts on, its value,
    the store it leaves, the statements it sent and what it displayed. *)
Record run (A : Type) : Type :=
  { value : A; store : DB; trace : list event; screen : list ui }.

Arguments value {A} _.
Arguments store {A} _.
Arguments trace {A} _.
Arguments screen {A} _.

Definition M (A : Type) : Type := DB -> run A.

Definition ret {A} (a : A) : M A :=
  fun db => {| value := a; store := db; trace := []; screen := [] |}.

(** [after t s r]: the run [r], coming after the statements [t] and the
    displays [s]. *)
Definition after {A} (t : list event) (s : list ui) (r : run A) : run A :=
  {| value := value r; store := store r;
     trace := t ++ trace r; screen := s ++ screen r |}.

Definition bind {A B} (m : M A) (k : A -> M B) : M B :=
  fun db =>
    let r1 := m db in
    after (trace r1) (screen r1) (k (value r1) (store r1)).

Notation "x <- m ;; k" := (bind m (fun x => k))
  (at level 61, m at next level, right associativity).
Notation "m ;;; k" := (bind m (fun _ => k))
  (at level 61, right associativity).

Definition show (u : ui) : M unit :=
  fun db => {| value := tt; store := db; trace := []; screen := [u] |}.

Definition st_error (msg : string) : M unit := show (StError msg).
Definition st_success (msg : string) : M unit := show (StSuccess msg).
Definition st_warning (msg : string) : M unit := show (StWarning msg).
Definition st_info (msg : string) : M unit := show (StInfo msg).
Definition st_dataframe (df : DataFrame) : M unit := show (StDataframe df).

(** [params or ()]. *)
Definition or_empty (params : option (list string)) : list string :=
  match params with
  | Some (p :: ps) => p :: ps
  | _ => []
  end.

(** [exec_admin(sql, params, fetch)]: one statement on a session of its
    own, committed when it returns and rolled back when it raises; the
    session is closed on both paths. The value is the pair
    [(rows, error)]. Of the calls of the body, [cur.execute] is the one
    that can raise: opening the session, [fetchall], [commit] and [close]
    are taken to succeed. *)
Definition exec_admin (sql : string) (params : option (list string))
    (fetch : bool) : M (option (list row) * option string) :=
  fun db =>
    let conn := get_connection db in
    let args := Some (or_empty params) in
    match execute (pending conn) sql args with
    | Returned db' rows =>
        let conn := {| committed := committed conn; pending := db' |} in
        let rows := if fetch then Some rows else None in
        let conn := commit conn in
        {| value := (rows, None); store := close conn;
           trace := [Executed sql args None]; screen := [] |}
    | Raised dirty msg =>
        let conn := {| committed := committed conn; pending := dirty |} in
        let conn := rollback conn in
        {| value := (None, Some msg); store := close conn;
           trace := [Executed sql args (Some msg)]; screen := [] |}
    end.

(** [if err:] on the second component of [exec_admin]'s value: [None]
    and the empty text are both false. *)
Definition err_truthy (err : option string) : bool :=
  match err with
  | None => false
  | Some msg => Py.truthy msg
  end.

(** [{err}] inside an f-string. *)
Definition err_text (err : option string) : string :=
  match err with
  | None => "None"
  | Some msg => msg
  end.

(** [list_users()]. *)
Definition list_users_sql : string :=
  "SELECT user AS User, host AS Host FROM mysql.user ORDER BY user, host;".

Definition list_users : M DataFrame :=
  fun db =>
    match run_query db list_users_sql with
    | inl rows =>
        {| value := rows; store := db;
           trace := [Queried list_users_sql]; screen := [] |}
    | inr e =>
        {| value := []; store := db;
           trace := [Queried list_users_sql];
           screen := [StWarning
             ("Could not list users (need admin privileges): " ++ e)] |}
    end.

(** The statement of [get_grants]: [user] and [host] are interpolated as
    they are given. *)
Definition show_grants_sql (user host : string) : string :=
  "SHOW GRANTS FOR `" ++ user ++ "`@'" ++ host ++ "';".

(** [list(r.values())[0]] for every row; [None] when a row has no
    column, where Python raises an IndexError. *)
Fixpoint first_values (rows : list row) : option (list string) :=
  match rows with
  | [] => Some []
  | [] :: _ => None
  | ((_, v) :: _) :: rest =>
      match first_values rest with
      | Some vs => Some (v :: vs)
      | None => None
      end
  end.

Definition could_not_fetch (user host e : string) : string :=
  "Could not fetch grants for " ++ user ++ "@" ++ host ++ ": " ++ e.

(** [get_grants(user, host)]: the statement runs on a session of its own
    with no argument tuple; an exception is turned into a warning and an
    empty frame, and the session is closed without a rollback. *)
Definition get_grants (user host : string) : M DataFrame :=
  fun db =>
    let conn := get_connection db in
    let sql := show_grants_sql user host in
    match execute (pending conn) sql None with
    | Returned db' rows =>
        let conn := commit {| committed := committed conn; pending := db' |} in
        match first_values rows with
        | Some grants =>
            {| value := map (fun g => [("Grant", g)]) grants;
               store := close conn;
               trace := [Executed sql None None]; screen := [] |}
        | None =>
            {| value := []; store := close conn;
               trace := [Executed sql None None];
               screen := [StWarning
                 (could_not_fetch user host "list index out of range")] |}
        end
    | Raised dirty msg =>
        let conn := {| committed := committed conn; pending := dirty |} in
        {| value := []; store := close conn;
           trace := [Executed sql None (Some msg)];
           screen := [StWarning (could_not_fetch user host msg)] |}
    end.

(** *** Statement texts

    The f-strings of the handlers, one definition per statement. *)

Definition create_user_sql (u h : string) : string :=
  "CREATE USER `" ++ u ++ "`@'" ++ h ++ "' IDENTIFIED BY %s;".

Definition alter_user_sql (u h : string) : string :=
  "ALTER USER `" ++ u ++ "`@'" ++ h ++ "' IDENTIFIED BY %s;".

Definition grant_select_sql (schema u h : string) : string :=
  "GRANT SELECT ON `" ++ schema ++ "`.* TO `" ++ u ++ "`@'" ++ h ++ "';".

Definition grant_read_write_sql (schema u h : string) : string :=
  "GRANT SELECT, INSERT, UPDATE, DELETE, EXECUTE ON `" ++ schema
    ++ "`.* TO `" ++ u ++ "`@'" ++ h ++ "';".

Definition grant_all_sql (schema u h : string) : string :=
  "GRANT ALL PRIVILEGES ON `" ++ schema ++ "`.* TO `" ++ u ++ "`@'" ++ h
    ++ "';".

Definition grant_sql (plist schema u h : string) : string :=
  "GRANT " ++ plist ++ " ON `" ++ schema ++ "`.* TO `" ++ u ++ "`@'" ++ h
    ++ "';".

Definition revoke_sql (plist schema u h : string) : string :=
  "REVOKE " ++ plist ++ " ON `" ++ schema ++ "`.* FROM `" ++ u ++ "`@'" ++ h
    ++ "';".

Definition drop_user_sql (u h : string) : string :=
  "DROP USER `" ++ u ++ "`@'" ++ h ++ "';".

Definition flush_sql : string := "FLUSH PRIVILEGES;".

(** *** Displayed texts *)

Definition user_created_msg (u h : string) : string :=
  "User `" ++ u ++ "`@'" ++ h ++ "' created.".

Definition preset_applied_msg (preset schema : string) : string :=
  "Preset '" ++ preset ++ "' applied on `" ++ schema ++ "`.*".

Definition password_updated_msg (u h : string) : string :=
  "Password updated for `" ++ u ++ "`@'" ++ h ++ "'.".

Definition action_successful_msg (action u h schema : string) : string :=
  action ++ " successful for `" ++ u ++ "`@'" ++ h ++ "` on `" ++ schema
    ++ "`.*".

Definition user_dropped_msg (u h : string) : string :=
  "User `" ++ u ++ "`@'" ++ h ++ "' dropped.".

(** [db_name()]: the schema configured in the session state, ["asi"]
    when there is none. *)
Fixpoint session_get (session_state : list (string * string))
    (key default : string) : string :=
  match session_state with
  | [] => default
  | (k, v) :: rest =>
      if (k =? key)%string then v else session_get rest key default
  end.

Definition db_name (session_state : list (string * string)) : string :=
  session_get session_state "db_name" "asi".

(** *** Section "Users & Grants" *)

(** The body of [if st.button("Show Grants")]. *)
Definition show_grants_handler (sel_user sel_host : string) : M unit :=
  if Py.truthy sel_user && Py.truthy sel_host then
    gdf <- get_grants sel_user sel_host ;;
    if df_empty gdf then st_info "No grants returned."
    else st_dataframe gdf
  else ret tt.

(** The whole section: the form and its button exist only when the list
    of users is not empty. *)
Definition users_and_grants (sel_user sel_host : string) (clicked : bool)
    : M unit :=
  users_df <- list_users ;;
  if df_empty users_df then
    st_info
      "No users listed or insufficient privileges to read `mysql.user`."
  else
    st_dataframe users_df ;;;
    if clicked then show_grants_handler sel_user sel_host else ret tt.

(** *** Section "Create User" *)

(** The options of the preset select box. *)
Definition ReadOnly : string := "Read-only (SELECT)".
Definition ReadWrite : string :=
  "Read/Write (SELECT, INSERT, UPDATE, DELETE, EXECUTE)".
Definition Admin : string := "Admin (ALL on schema)".
Definition NoPreset : string := "None".

Definition preset_options : list string :=
  [ReadOnly; ReadWrite; Admin; NoPreset].

(** The body of [if submitted] of the form. *)
Definition create_user_handler
    (schema new_user new_host new_password preset : string) : M unit :=
  let u := sanitize_user new_user in
  let h := sanitize_host (Py.or_ new_host "%") in
  if negb (Py.truthy u) || negb (Py.truthy new_password) then
    st_error "Username and password are required."
  else
    r <- exec_admin (create_user_sql u h) (Some [new_password]) false ;;
    let err := snd r in
    if err_truthy err then
      st_error ("CREATE USER failed: " ++ err_text err)
    else
      st_success (user_created_msg u h) ;;;
      r <- (if Py.startswith preset "Read-only" then
              exec_admin (grant_select_sql schema u h) None false
            else if Py.startswith preset "Read/Write" then
              exec_admin (grant_read_write_sql schema u h) None false
            else if Py.startswith preset "Admin" then
              exec_admin (grant_all_sql schema u h) None false
            else ret (None, None)) ;;
      let err := snd r in
      if err_truthy err then
        st_error ("Grant failed: " ++ err_text err)
      else
        exec_admin flush_sql None false ;;;
        st_success (preset_applied_msg preset schema) ;;;
        list_users ;;;
        ret tt.

(** *** Section "Change Password" *)

Definition update_password_handler (ch_user ch_host ch_pass : string)
    : M unit :=
  let u := sanitize_user ch_user in
  let h := sanitize_host (Py.or_ ch_host "%") in
  if negb (Py.truthy u) || negb (Py.truthy ch_pass) then
    st_error "User and new password are required."
  else
    r <- exec_admin (alter_user_sql u h) (Some [ch_pass]) false ;;
    let err := snd r in
    if err_truthy err then
      st_error ("ALTER USER failed: " ++ err_text err)
    else
      exec_admin flush_sql None false ;;;
      st_success (password_updated_msg u h).

(** *** Section "Grant / Revoke Privileges" *)

(** The vocabulary of the privilege multi-select. *)
Definition privilege_options : list string :=
  ["SELECT"; "INSERT"; "UPDATE"; "DELETE"; "EXECUTE"; "CREATE"; "DROP";
   "ALTER"; "INDEX"; "TRIGGER"].

Definition is_nil {A} (l : list A) : bool :=
  match l with [] => true | _ => false end.

Definition grant_revoke_handler
    (schema gr_user gr_host action : string) (privs : list string)
    : M unit :=
  let u := sanitize_user gr_user in
  let h := sanitize_host (Py.or_ gr_host "%") in
  if negb (Py.truthy u) || is_nil privs then
    st_error "User and at least one privilege are required."
  else
    let plist := Py.join ", " privs in
    r <- (if (action =? "GRANT")%string then
            exec_admin (grant_sql plist schema u h) None false
          else
            exec_admin (revoke_sql plist schema u h) None false) ;;
    let err := snd r in
    if err_truthy err then
      st_error (action ++ " failed: " ++ err_text err)
    else
      exec_admin flush_sql None false ;;;
      st_success (action_successful_msg action u h schema).

(** *** Section "Delete User" *)

Definition drop_user_handler (del_user del_host : string) : M unit :=
  let u := sanitize_user del_user in
  let h := sanitize_host (Py.or_ del_host "%") in
  if negb (Py.truthy u) then
    st_error "User is required."
  else
    r <- exec_admin (drop_user_sql u h) None false ;;
    let err := snd r in
    if err_truthy err then
      st_error ("DROP USER failed: " ++ err_text err)
    else
      exec_admin flush_sql None false ;;;
      st_success (user_dropped_msg u h) ;;;
      list_users ;;;
      ret tt.

(** *** One press of a button

    The buttons of the page with the contents of their input fields, and
    the handler each one runs. *)
Inductive button : Type :=
| Btn_show_grants (sel_user sel_host : string)
| Btn_create_user (new_user new_host new_password preset : string)
| Btn_update_password (ch_user ch_host ch_pass : string)
| Btn_selected_privileges (gr_user gr_host action : string)
    (privs : list string)
| Btn_drop_user (del_user del_host : string).

Definition press (schema : string) (b : button) : M unit :=
  match b with
  | Btn_show_grants sel_user sel_host =>
      users_and_grants sel_user sel_host true
  | Btn_create_user new_user new_host new_password preset =>
      create_user_handler schema new_user new_host new_password preset
  | Btn_update_password ch_user ch_host ch_pass =>
      update_password_handler ch_user ch_host ch_pass
  | Btn_selected_privileges gr_user gr_host action privs =>
      grant_revoke_handler schema gr_user gr_host action privs
  | Btn_drop_user del_user del_host =>
      drop_user_handler del_user del_host
  end.

End Page.

Arguments value {DB A} _.
Arguments store {DB A} _.
Arguments trace {DB A} _.
Arguments screen {DB A} _.
Arguments ret {DB A} a.
Arguments after {DB A} t s r.
Arguments bind {DB A B} m k.
Arguments show {DB} u.
Arguments st_error {DB} msg.
Arguments st_success {DB} msg.
Arguments st_warning {DB} msg.
Arguments st_info {DB} msg.
Arguments st_dataframe {DB} df.
Arguments exec_admin {DB} execute sql params fetch.
Arguments list_users {DB} run_query.
Arguments get_grants {DB} execute user host.
Arguments show_grants_handler {DB} execute sel_user sel_host.
Arguments users_and_grants {DB} execute run_query sel_user sel_host clicked.
Arguments create_user_handler {DB} execute run_query
  schema new_user new_host new_password preset.
Arguments update_password_handler {DB} execute ch_user ch_host ch_pass.
Arguments grant_revoke_handler {DB} execute schema gr_user gr_host action privs.
Arguments drop_user_handler {DB} execute run_query del_user del_host.
Arguments press {DB} execute run_query schema b.

Arguments create_user_sql : simpl never.
Arguments alter_user_sql : simpl never.
Arguments grant_select_sql : simpl never.
Arguments grant_read_write_sql : simpl never.
Arguments grant_all_sql : simpl never.
Arguments grant_sql : simpl never.
Arguments revoke_sql : simpl never.
Arguments drop_user_sql : simpl never.
Arguments show_grants_sql : simpl never.
Arguments flush_sql : simpl never.
Arguments list_users_sql : simpl never.
Arguments user_created_msg : simpl never.
Arguments preset_applied_msg : simpl never.
Arguments password_updated_msg : simpl never.
Arguments action_successful_msg : simpl never.
Arguments user_dropped_msg : simpl never.
Arguments could_not_fetch : simpl never.

(** ** Reading a trace *)

Definition is_flush (e : event) : bool :=
  match e with
  | Executed sql _ _ => (sql =? "FLUSH PRIVILEGES;")%string
  | Queried _ => false
  end.

(** The statements that change accounts or privileges, told by their
    leading keywords. *)
Definition mutating_keywords : list string :=
  ["CREATE USER"; "ALTER USER"; "GRANT"; "REVOKE"; "DROP USER"].

Definition is_mutating (e : event) : bool :=
  match e with
  | Executed sql _ _ => existsb (fun k => String.prefix k sql) mutating_keywords
  | Queried _ => false
  end.

(** A statement that raised. *)
Definition failed (e : event) : bool :=
  match e with
  | Executed _ _ (Some _) => true
  | _ => false
  end.

(** A statement that raised with an empty error text. *)
Definition failed_silently (e : event) : bool :=
  match e with
  | Executed _ _ (Some msg) => negb (Py.truthy msg)
  | _ => false
  end.

Definition event_sql (e : event) : string :=
  match e with
  | Executed sql _ _ => sql
  | Queried sql => sql
  end.

Definition flushes (t : list event) : nat := length (filter is_flush t).

(** A mutating statement that raised. *)
Definition mutating_failed (e : event) : bool := is_mutating e && failed e.

(** A mutating statement that raised with an empty error text, which
    [if err:] takes for a success. *)
Definition mutating_failed_silently (e : event) : bool :=
  is_mutating e && failed_silently e.

(** A statement sent with the empty argument tuple, or a read. *)
Definition no_arguments (e : event) : bool :=
  match e with
  | Executed _ (Some []) _ => true
  | Executed _ _ _ => false
  | Queried _ => true
  end.

(** All the ways of cutting a list at one of its elements: what comes
    before, the element, what comes after. *)
Fixpoint splits {A} (t : list A) : list (list A * A * list A) :=
  match t with
  | [] => []
  | x :: rest =>
      ([], x, rest) :: map (fun s => (x :: fst (fst s), snd (fst s), snd s))
                           (splits rest)
  end.

Definition at_each_cut {A} (P : list A -> A -> list A -> bool) (t : list A)
    : bool :=
  forallb (fun s => P (fst (fst s)) (snd (fst s)) (snd s)) (splits t).

(** After a mutating statement that raised with an error text, nothing
    follows. *)
Definition stops_at_failure (t : list event) : bool :=
  at_each_cut
    (fun _ e post =>
       implb (mutating_failed e && negb (failed_silently e)) (is_nil post)) t.

(** A flush comes after at least one mutating statement, after no failed
    one and before none, and there is at most one flush; there is one when
    mutating statements were sent and none of them failed. *)
Definition flush_discipline (t : list event) : bool :=
  at_each_cut
    (fun pre e post =>
       implb (is_flush e)
         (existsb is_mutating pre && negb (existsb mutating_failed pre)
          && negb (existsb is_mutating post) && Nat.eqb (flushes t) 1)) t
  && implb (existsb is_mutating t && negb (existsb mutating_failed t))
       (Nat.eqb (flushes t) 1).

(** The texts the "Create User" and "Change Password" handlers can send, in
    the order they send them, written without the password. *)
Definition create_user_script (schema new_user new_host preset : string)
    : list string :=
  let u := sanitize_user new_user in
  let h := sanitize_host (Py.or_ new_host "%") in
  [create_user_sql u h]
  ++ (if Py.startswith preset "Read-only" then [grant_select_sql schema u h]
      else if Py.startswith preset "Read/Write" then
        [grant_read_write_sql schema u h]
      else if Py.startswith preset "Admin" then [grant_all_sql schema u h]
      else [])
  ++ [flush_sql; list_users_sql].

Definition update_password_script (ch_user ch_host : string) : list string :=
  let u := sanitize_user ch_user in
  let h := sanitize_host (Py.or_ ch_host "%") in
  [alter_user_sql u h; flush_sql].

(** The user and host fields of a button. *)
Definition button_user (b : button) : string :=
  match b with
  | Btn_show_grants sel_user _ => sel_user
  | Btn_create_user new_user _ _ _ => new_user
  | Btn_update_password ch_user _ _ => ch_user
  | Btn_selected_privileges gr_user _ _ _ => gr_user
  | Btn_drop_user del_user _ => del_user
  end.

Definition button_host (b : button) : string :=
  match b with
  | Btn_show_grants _ sel_host => sel_host
  | Btn_create_user _ new_host _ _ => new_host
  | Btn_update_password _ ch_host _ => ch_host
  | Btn_selected_privileges _ gr_host _ _ => gr_host
  | Btn_drop_user _ del_host => del_host
  end.

(** The buttons that create, change or drop accounts and privileges. *)
Definition is_admin_button (b : button) : bool :=
  match b with
  | Btn_show_grants _ _ => false
  | _ => true
  end.

(** The text of the first statement of a trace. *)
Definition first_sql (t : list event) : option string :=
  option_map event_sql (hd_error t).

(** The texts that interpolate the name [u] and the host [h], and the two
    fixed texts. *)
Inductive built_from (schema u h : string) : string -> Prop :=
| built_create : built_from schema u h (create_user_sql u h)
| built_alter : built_from schema u h (alter_user_sql u h)
| built_grant_select : built_from schema u h (grant_select_sql schema u h)
| built_grant_read_write :
    built_from schema u h (grant_read_write_sql schema u h)
| built_grant_all : built_from schema u h (grant_all_sql schema u h)
| built_grant plist : built_from schema u h (grant_sql plist schema u h)
| built_revoke plist : built_from schema u h (revoke_sql plist schema u h)
| built_drop : built_from schema u h (drop_user_sql u h)
| built_flush : built_from schema u h flush_sql
| built_list_users : built_from schema u h list_users_sql.

(** ** A small store to run the page on

    The store keeps the texts of the statements it applied. It refuses a
    statement that names the schema [nosuchdb] and a CREATE USER it has
    applied before; reads leave it as it is. *)

Module Toy.

Definition DB : Type := list string.

Definition mentions (pat s : string) : bool :=
  match String.index 0 pat s with
  | Some _ => true
  | None => false
  end.

Definition execute (db : DB) (sql : string) (args : option (list string))
    : outcome DB :=
  if mentions "`nosuchdb`" sql then
    Raised (db ++ [sql]) "(1049, 'Unknown database')"
  else if String.prefix "CREATE USER" sql && existsb (String.eqb sql) db then
    Raised db "(1396, 'Operation CREATE USER failed')"
  else if String.prefix "SHOW GRANTS" sql then
    Returned db [[("Grants", "GRANT USAGE ON *.* TO `root`@`localhost`")]]
  else if String.prefix "FLUSH" sql then
    Returned db []
  else
    Returned (db ++ [sql]) [].

Definition run_query (db : DB) (sql : string) : list row + string :=
  inl [[("User", "root"); ("Host", "localhost")]].

End Toy.

(** ** Reading a run of a handler *)

(** A displayed error, a displayed success. *)
Definition is_error (m : ui) : bool :=
  match m with
  | StError _ => true
  | _ => false
  end.

Definition is_success (m : ui) : bool :=
  match m with
  | StSuccess _ => true
  | _ => false
  end.

Definition is_warning (m : ui) : bool :=
  match m with
  | StWarning _ => true
  | _ => false
  end.

(** A read of the user list. *)
Definition is_query (e : event) : bool :=
  match e with
  | Queried _ => true
  | Executed _ _ _ => false
  end.

(** The test each account-changing handler makes on its fields before it
    sends anything. *)
Definition rejected (b : button) : bool :=
  match b with
  | Btn_show_grants _ _ => false
  | Btn_create_user new_user _ new_password _ =>
      negb (Py.truthy (sanitize_user new_user))
      || negb (Py.truthy new_password)
  | Btn_update_password ch_user _ ch_pass =>
      negb (Py.truthy (sanitize_user ch_user)) || negb (Py.truthy ch_pass)
  | Btn_selected_privileges gr_user _ _ privs =>
      negb (Py.truthy (sanitize_user gr_user)) || is_nil privs
  | Btn_drop_user del_user _ => negb (Py.truthy (sanitize_user del_user))
  end.

(** The error each handler displays when that test fails. *)
Definition rejection_message (b : button) : string :=
  match b with
  | Btn_show_grants _ _ => ""
  | Btn_create_user _ _ _ _ => "Username and password are required."
  | Btn_update_password _ _ _ => "User and new password are required."
  | Btn_selected_privileges _ _ _ _ =>
      "User and at least one privilege are required."
  | Btn_drop_user _ _ => "User is required."
  end.

(** What each handler writes before [failed:] when its first statement
    raised. *)
Definition failure_label (b : button) : string :=
  match b with
  | Btn_show_grants _ _ => ""
  | Btn_create_user _ _ _ _ => "CREATE USER"
  | Btn_update_password _ _ _ => "ALTER USER"
  | Btn_selected_privileges _ _ action _ => action
  | Btn_drop_user _ _ => "DROP USER"
  end.

(** The handlers that read the user list again at their end. *)
Definition refreshes_list (b : button) : bool :=
  match b with
  | Btn_create_user _ _ _ _ => true
  | Btn_drop_user _ _ => true
  | _ => false
  end.

(** The first value of a row, when it has one. *)
Definition first_value (r : row) : string :=
  match r with
  | (_, v) :: _ => v
  | [] => ""
  end.


(** * Properties *)

(** ** The sanitizers *)

Section Strip.

Variable keep : ascii -> bool.

Lemma re_sub_strip_keeps (s : string) (c : ascii) :
  In c (list_ascii_of_string (Py.re_sub_strip keep s)) -> keep c = true.
Proof.
  induction s as [|a s IH]; simpl.
  - intros [].
  - destruct (keep a) eqn:Ka; simpl; [intros [<- | H] | ]; auto.
Qed.

Lemma re_sub_strip_subseq (s : string) : subseq (Py.re_sub_strip keep s) s.
Proof.
  induction s as [|a s IH]; simpl; [constructor|].
  destruct (keep a); auto.
Qed.

(** A string of kept characters is left as it is. *)
Lemma re_sub_strip_id (s : string) :
  forallb keep (list_ascii_of_string s) = true -> Py.re_sub_strip keep s = s.
Proof.
  induction s as [|a s IH]; simpl; [reflexivity|].
  intros H. apply andb_true_iff in H as [Ka Hs].
  rewrite Ka, IH; auto.
Qed.

Lemma re_sub_strip_idempotent (s : string) :
  Py.re_sub_strip keep (Py.re_sub_strip keep s) = Py.re_sub_strip keep s.
Proof.
  induction s as [|a s IH]; simpl; [reflexivity|].
  destruct (keep a) eqn:Ka; simpl; [rewrite Ka, IH|]; auto.
Qed.

End Strip.

Lemma mem_ascii_In (c : ascii) (alphabet : string) :
  mem_ascii c alphabet = true -> In c (list_ascii_of_string alphabet).
Proof.
  unfold mem_ascii. intros H.
  apply existsb_exists in H as (x & Hx & E).
  apply Ascii.eqb_eq in E. now subst.
Qed.

Lemma user_class_alphabet (c : ascii) :
  user_class c = mem_ascii c name_alphabet.
Proof.
  destruct c as [b0 b1 b2 b3 b4 b5 b6 b7];
    destruct b0, b1, b2, b3, b4, b5, b6, b7; vm_compute; reflexivity.
Qed.

Lemma host_class_alphabet (c : ascii) :
  host_class c = mem_ascii c host_alphabet.
Proof.
  destruct c as [b0 b1 b2 b3 b4 b5 b6 b7];
    destruct b0, b1, b2, b3, b4, b5, b6, b7; vm_compute; reflexivity.
Qed.

Lemma sanitize_user_chars (s : string) :
  chars_in name_alphabet (sanitize_user s).
Proof.
  intros c H. apply mem_ascii_In. rewrite <- user_class_alphabet.
  exact (re_sub_strip_keeps user_class s c H).
Qed.

Lemma sanitize_host_chars (s : string) :
  chars_in host_alphabet (sanitize_host s).
Proof.
  intros c H. apply mem_ascii_In. rewrite <- host_class_alphabet.
  exact (re_sub_strip_keeps host_class s c H).
Qed.

(** C4. For every string [s], [sanitize_user s] has only characters of
    [A-Za-z0-9_] and is a subsequence of [s]; [sanitize_host s] has only
    characters of [A-Za-z0-9_%.:-] and is a subsequence of [s]. Both are
    total functions, and the result may be empty for a non-empty input. *)
Theorem sanitizers_allow_list (s : string) :
  chars_in name_alphabet (sanitize_user s)
  /\ subseq (sanitize_user s) s
  /\ chars_in host_alphabet (sanitize_host s)
  /\ subseq (sanitize_host s) s
  /\ sanitize_user "'; " = ""
  /\ sanitize_host "'; " = "".
Proof.
  repeat split.
  - apply sanitize_user_chars.
  - apply re_sub_strip_subseq.
  - apply sanitize_host_chars.
  - apply re_sub_strip_subseq.
Qed.

(** ** Cutting a trace *)

Lemma splits_complete {A} (pre : list A) (e : A) (post : list A) :
  In (pre, e, post) (splits (pre ++ e :: post)).
Proof.
  induction pre as [|x pre IH]; simpl.
  - now left.
  - right. apply in_map_iff. exists (pre, e, post). split; auto.
Qed.

Lemma at_each_cut_spec {A} (P : list A -> A -> list A -> bool) (t : list A) :
  at_each_cut P t = true ->
  forall pre e post, t = pre ++ e :: post -> P pre e post = true.
Proof.
  intros H pre e post ->. unfold at_each_cut in H.
  rewrite forallb_forall in H.
  exact (H _ (splits_complete pre e post)).
Qed.

(** ** Running a handler, one statement at a time *)

Section Runs.

Context {DB : Type}.
Variable execute : DB -> string -> option (list string) -> outcome DB.
Variable run_query : DB -> string -> list row + string.

Lemma exec_admin_run sql params fetch db :
  exec_admin execute sql params fetch db =
  match execute db sql (Some (or_empty params)) with
  | Returned db' rows =>
      {| value := (if fetch then Some rows else None, None); store := db';
         trace := [Executed sql (Some (or_empty params)) None];
         screen := [] |}
  | Raised dirty msg =>
      {| value := (None, Some msg); store := db;
         trace := [Executed sql (Some (or_empty params)) (Some msg)];
         screen := [] |}
  end.
Proof.
  unfold exec_admin; cbn.
  destruct (execute db sql (Some (or_empty params))); reflexivity.
Qed.

Lemma bind_exec_admin {B} sql params fetch (k : _ -> M DB B) db :
  bind (exec_admin execute sql params fetch) k db =
  match execute db sql (Some (or_empty params)) with
  | Returned db' rows =>
      after [Executed sql (Some (or_empty params)) None] []
        (k (if fetch then Some rows else None, None) db')
  | Raised dirty msg =>
      after [Executed sql (Some (or_empty params)) (Some msg)] []
        (k (None, Some msg) db)
  end.
Proof.
  unfold bind. rewrite exec_admin_run.
  destruct (execute db sql (Some (or_empty params))); reflexivity.
Qed.

Lemma bind_show {B} u (k : unit -> M DB B) db :
  bind (show u) k db = after [] [u] (k tt db).
Proof. reflexivity. Qed.

Lemma bind_ret {A B} (a : A) (k : A -> M DB B) db :
  bind (ret a) k db = after [] [] (k a db).
Proof. reflexivity. Qed.

Lemma bind_list_users {B} (k : DataFrame -> M DB B) db :
  bind (list_users run_query) k db =
  match run_query db list_users_sql with
  | inl rows => after [Queried list_users_sql] [] (k rows db)
  | inr e =>
      after [Queried list_users_sql]
        [StWarning ("Could not list users (need admin privileges): " ++ e)]
        (k [] db)
  end.
Proof.
  unfold bind, list_users.
  destruct (run_query db list_users_sql); reflexivity.
Qed.

Lemma bind_get_grants {B} user host (k : DataFrame -> M DB B) db :
  bind (get_grants execute user host) k db =
  match execute db (show_grants_sql user host) None with
  | Returned db' rows =>
      match first_values rows with
      | Some grants =>
          after [Executed (show_grants_sql user host) None None] []
            (k (map (fun g => [("Grant", g)]) grants) db')
      | None =>
          after [Executed (show_grants_sql user host) None None]
            [StWarning
               (could_not_fetch user host "list index out of range")]
            (k [] db')
      end
  | Raised dirty msg =>
      after [Executed (show_grants_sql user host) None (Some msg)]
        [StWarning (could_not_fetch user host msg)] (k [] db)
  end.
Proof.
  unfold bind, get_grants; cbn.
  destruct (execute db (show_grants_sql user host) None); [|reflexivity].
  destruct (first_values rows); reflexivity.
Qed.

(** A test is evaluated when its value is known, and split on otherwise. *)
Ltac split_on c :=
  let v := eval vm_compute in c in
  match v with
  | true => change c with true; cbv iota
  | false => change c with false; cbv iota
  | _ => destruct c eqn:?
  end.

(** One step of a run: the first statement of the handler is replaced by
    its possible outcomes. *)
Ltac step :=
  match goal with
  | |- context [bind (exec_admin execute ?s ?p ?f) ?k ?db] =>
      rewrite (bind_exec_admin s p f k db); cbn [or_empty];
      match goal with
      | |- context [match execute db s ?a with _ => _ end] =>
          destruct (execute db s a) as [? ?|? [|? ?]] eqn:?
      end
  | |- context [bind (show ?u) ?k ?db] => rewrite (bind_show u k db)
  | |- context [bind (ret ?a) ?k ?db] => rewrite (bind_ret a k db)
  | |- context [bind (list_users run_query) ?k ?db] =>
      rewrite (bind_list_users k db);
      destruct (run_query db list_users_sql) eqn:?
  | |- context [bind (get_grants execute ?u ?h) ?k ?db] =>
      rewrite (bind_get_grants u h k db);
      destruct (execute db (show_grants_sql u h) None) as [? ?|? ?] eqn:?;
      [destruct (first_values _) eqn:?|]
  | |- context [bind (if ?c then _ else _) _ _] => split_on c
  | |- context [(if ?c then _ else _) ?db] => split_on c
  end;
  cbn [snd fst err_truthy err_text Py.truthy or_empty].

Ltac run_cases :=
  unfold users_and_grants, show_grants_handler, create_user_handler,
    update_password_handler, grant_revoke_handler, drop_user_handler,
    st_error, st_success, st_warning, st_info, st_dataframe;
  repeat step; cbn [value store trace screen after app show ret].

Ltac by_cases := run_cases; vm_compute; intros; try discriminate; auto.

(** *** What every run satisfies *)

Lemma press_stops_at_failure schema b db :
  stops_at_failure (trace (press execute run_query schema b db)) = true.
Proof. destruct b; cbn [press]; by_cases. Qed.

Lemma press_flush_discipline schema b db :
  let t := trace (press execute run_query schema b db) in
  existsb mutating_failed_silently t = false -> flush_discipline t = true.
Proof. destruct b; cbn [press]; by_cases. Qed.

(** *** The executor and the units it runs *)

(** C2, as the code has it. [exec_admin] runs one statement as a unit of
    its own: when the statement raises, the unit is rolled back (the store
    is as before the statement), and the value carries the store's error
    text. In every handler nothing is sent after a mutating statement that
    raised with an error text. What an earlier statement of the same
    handler committed stays: after a CREATE USER that returned, a failing
    preset grant leaves the store as the CREATE USER left it. *)
Theorem exec_admin_statement_is_its_own_unit :
  (forall sql params fetch db dirty msg,
      execute db sql (Some (or_empty params)) = Raised dirty msg ->
      exec_admin execute sql params fetch db =
      {| value := (None, Some msg); store := db;
         trace := [Executed sql (Some (or_empty params)) (Some msg)];
         screen := [] |})
  /\ (forall schema b db pre e post,
         trace (press execute run_query schema b db) = pre ++ e :: post ->
         mutating_failed e = true -> failed_silently e = false ->
         post = [])
  /\ (forall schema new_user new_host new_password preset db db1 rows e,
         let u := sanitize_user new_user in
         let h := sanitize_host (Py.or_ new_host "%") in
         let r := create_user_handler execute run_query schema new_user
                    new_host new_password preset db in
         Py.truthy u = true -> Py.truthy new_password = true ->
         execute db (create_user_sql u h) (Some [new_password])
           = Returned db1 rows ->
         In e (trace r) ->
         mutating_failed e = true -> failed_silently e = false ->
         store r = db1).
Proof.
  split; [|split].
  - intros sql params fetch db dirty msg H.
    rewrite exec_admin_run, H. reflexivity.
  - intros schema b db pre e post Ht Hm Hs.
    pose proof (at_each_cut_spec _ _ (press_stops_at_failure schema b db)
                  pre e post Ht) as H.
    cbv beta in H. rewrite Hm, Hs in H. simpl in H.
    destruct post; [reflexivity | discriminate].
  - intros schema new_user new_host new_password preset db db1 rows e u h r.
    subst r u h. intros Hu Hp. unfold create_user_handler.
    rewrite Hu, Hp. cbn [negb orb]. intros Hc.
    rewrite bind_exec_admin. cbn [or_empty]. rewrite Hc.
    cbn [snd fst err_truthy err_text Py.truthy].
    run_cases; intros Hin Hm Hs;
      repeat (destruct Hin as [<- | Hin]); try contradiction;
      vm_compute in Hm, Hs; try discriminate; reflexivity.
Qed.

(** *** The flush *)

(** X23. In every run in which no mutating statement raised with an empty
    error text: when mutating statements were sent and all of them
    succeeded, FLUSH PRIVILEGES is sent exactly once; and wherever a flush
    stands in the trace, a mutating statement was sent before it, every
    mutating statement before it succeeded, no mutating statement comes
    after it, and it is the only flush. *)
Theorem flush_once_after_success schema b db :
  let t := trace (press execute run_query schema b db) in
  existsb mutating_failed_silently t = false ->
  (existsb is_mutating t = true -> existsb mutating_failed t = false ->
   flushes t = 1)
  /\ (forall pre e post,
         t = pre ++ e :: post -> is_flush e = true ->
         existsb is_mutating pre = true
         /\ existsb mutating_failed pre = false
         /\ existsb is_mutating post = false
         /\ flushes t = 1).
Proof.
  intros t Hs.
  pose proof (press_flush_discipline schema b db Hs) as H.
  fold t in H. unfold flush_discipline in H.
  apply andb_true_iff in H as [Hcut Hall]. split.
  - intros Hm Hf. rewrite Hm, Hf in Hall. simpl in Hall.
    now apply Nat.eqb_eq.
  - intros pre e post Ht He.
    pose proof (at_each_cut_spec _ _ Hcut pre e post Ht) as H.
    cbv beta in H. rewrite He in H. simpl in H.
    repeat (apply andb_true_iff in H as [H ?]).
    repeat match goal with
           | X : negb _ = true |- _ => apply negb_true_iff in X
           | X : Nat.eqb _ _ = true |- _ => apply Nat.eqb_eq in X
           end.
    auto.
Qed.

(** *** Create User: a created user whose preset grant fails *)

(** X24. When the CREATE USER of the "Create User" handler succeeds and the
    GRANT of the preset that follows it raises with an error text, the page
    first tells that the user was created and then that the grant failed,
    with the store's text; nothing more is sent, no flush in particular,
    and the store is left as the CREATE USER left it. *)
Theorem create_user_partial_success_reported
    schema new_user new_host new_password preset db c pc g pg msg rest :
  let u := sanitize_user new_user in
  let h := sanitize_host (Py.or_ new_host "%") in
  let r := create_user_handler execute run_query schema new_user new_host
             new_password preset db in
  trace r = Executed c pc None :: Executed g pg (Some msg) :: rest ->
  String.prefix "GRANT" g = true ->
  msg <> "" ->
  screen r = [StSuccess (user_created_msg u h);
              StError ("Grant failed: " ++ msg)]
  /\ rest = []
  /\ c = create_user_sql u h
  /\ pc = Some [new_password]
  /\ flushes (trace r) = 0
  /\ exists rows, execute db c pc = Returned (store r) rows.
Proof.
  intros u h r. subst r u h.
  run_cases; intros Ht Hg Hm; inversion Ht; subst;
    try (vm_compute in Hg; discriminate); try congruence;
    repeat split; eauto.
Qed.

(** *** Secrets *)

Lemma create_user_texts_prefix schema new_user new_host new_password preset db :
  exists n,
    map event_sql
      (trace (create_user_handler execute run_query schema new_user new_host
                new_password preset db))
    = firstn n (create_user_script schema new_user new_host preset).
Proof.
  unfold create_user_script. run_cases;
    first [ now exists 0 | now exists 1 | now exists 2 | now exists 3
          | now exists 4 ].
Qed.

Lemma update_password_texts_prefix ch_user ch_host ch_pass db :
  exists n,
    map event_sql
      (trace (update_password_handler execute ch_user ch_host ch_pass db))
    = firstn n (update_password_script ch_user ch_host).
Proof.
  unfold update_password_script. run_cases;
    first [ now exists 0 | now exists 1 | now exists 2 ].
Qed.

Lemma same_texts_of_prefixes (script : list string) (t1 t2 : list event) :
  (exists n, map event_sql t1 = firstn n script) ->
  (exists n, map event_sql t2 = firstn n script) ->
  forall i e1 e2,
    nth_error t1 i = Some e1 -> nth_error t2 i = Some e2 ->
    event_sql e1 = event_sql e2.
Proof.
  intros [n1 H1] [n2 H2] i e1 e2 N1 N2.
  apply (map_nth_error event_sql) in N1, N2.
  rewrite H1, nth_error_firstn in N1. rewrite H2, nth_error_firstn in N2.
  destruct (Nat.ltb i n1); [|discriminate].
  destruct (Nat.ltb i n2); [|discriminate].
  congruence.
Qed.

(** C3. In the "Create User" and "Change Password" handlers the password
    is handed to the store in the argument tuple of the first statement
    and in no statement text: run with two passwords, all else equal, the
    handler sends the same text at every position where both runs send a
    statement; the first statement carries the password as its only
    argument and the statements after it carry none. *)
Theorem secret_only_in_bound_parameters
    schema new_user new_host preset ch_user ch_host p1 p2 db :
  let u := sanitize_user new_user in
  let h := sanitize_host (Py.or_ new_host "%") in
  let u' := sanitize_user ch_user in
  let h' := sanitize_host (Py.or_ ch_host "%") in
  let c1 := trace (create_user_handler execute run_query schema new_user
                     new_host p1 preset db) in
  let c2 := trace (create_user_handler execute run_query schema new_user
                     new_host p2 preset db) in
  let a1 := trace (update_password_handler execute ch_user ch_host p1 db) in
  let a2 := trace (update_password_handler execute ch_user ch_host p2 db) in
  (forall i e1 e2,
      nth_error c1 i = Some e1 -> nth_error c2 i = Some e2 ->
      event_sql e1 = event_sql e2)
  /\ (forall i e1 e2,
         nth_error a1 i = Some e1 -> nth_error a2 i = Some e2 ->
         event_sql e1 = event_sql e2)
  /\ (c1 = []
      \/ exists err rest,
           c1 = Executed (create_user_sql u h) (Some [p1]) err :: rest
           /\ forallb no_arguments rest = true)
  /\ (a1 = []
      \/ exists err rest,
           a1 = Executed (alter_user_sql u' h') (Some [p1]) err :: rest
           /\ forallb no_arguments rest = true).
Proof.
  intros u h u' h' c1 c2 a1 a2. subst u h u' h' c1 c2 a1 a2.
  split; [|split; [|split]].
  - apply (same_texts_of_prefixes
             (create_user_script schema new_user new_host preset));
      apply create_user_texts_prefix.
  - apply (same_texts_of_prefixes (update_password_script ch_user ch_host));
      apply update_password_texts_prefix.
  - run_cases; first [ now left | right; eexists; eexists; split; reflexivity ].
  - run_cases; first [ now left | right; eexists; eexists; split; reflexivity ].
Qed.

(** *** The statements of "Create User" and of "GRANT" *)

(** C5. Pressing "Create User" with user [app_user], host [%], password
    [p] and the read-only preset on schema [asi]: the first statement is
    the CREATE USER with [p] as its bound argument; when it returns, the
    mutating statements of the run are exactly that CREATE USER and then
    GRANT SELECT ON `asi`.* TO `app_user`@'%' (each text ends with the
    terminator [;]). With the preset "None" the CREATE USER is the only
    mutating statement: no grant is sent. *)
Theorem create_user_read_only_statements db :
  let create :=
    Executed "CREATE USER `app_user`@'%' IDENTIFIED BY %s;" (Some ["p"]) in
  let grant :=
    Executed "GRANT SELECT ON `asi`.* TO `app_user`@'%';" (Some []) in
  let r := press execute run_query "asi"
             (Btn_create_user "app_user" "%" "p" ReadOnly) db in
  let r0 := press execute run_query "asi"
              (Btn_create_user "app_user" "%" "p" NoPreset) db in
  (exists err rest, trace r = create err :: rest)
  /\ (forall db1 rows,
         execute db "CREATE USER `app_user`@'%' IDENTIFIED BY %s;"
           (Some ["p"]) = Returned db1 rows ->
         exists err, filter is_mutating (trace r) = [create None; grant err])
  /\ (exists err, filter is_mutating (trace r0) = [create err]).
Proof.
  intros create grant r r0. subst create grant r r0. cbn [press].
  unfold create_user_handler.
  change (sanitize_user "app_user") with "app_user".
  change (sanitize_host (Py.or_ "%" "%")) with "%".
  split; [|split].
  - run_cases; eexists; eexists; reflexivity.
  - intros db1 rows H.
    change (execute db (create_user_sql "app_user" "%") (Some ["p"])
            = Returned db1 rows) in H.
    revert H. run_cases; intros H; try discriminate; eexists; reflexivity.
  - run_cases; eexists; reflexivity.
Qed.

Lemma append_assoc (a b c : string) :
  ((a ++ b) ++ c = a ++ (b ++ c))%string.
Proof. induction a as [|x a IH]; simpl; [reflexivity | now rewrite IH]. Qed.

Lemma join_comma (p : string) (ps : list string) :
  Py.join ", " (p :: ps)
  = (p ++ fold_right (fun q acc => (", " ++ q ++ acc)%string) "" ps)%string.
Proof.
  revert p. induction ps as [|q ps IH]; intros p.
  - simpl. induction p as [|c p IHp]; simpl; [reflexivity | now rewrite <- IHp].
  - change (Py.join ", " (p :: q :: ps))
      with (p ++ ", " ++ Py.join ", " (q :: ps))%string.
    rewrite IH. reflexivity.
Qed.

(** C6. Pressing "GRANT Selected Privileges" with user [u], host [%] and
    the privileges SELECT, INSERT on schema [asi] sends exactly one
    mutating statement, GRANT SELECT, INSERT ON `asi`.* TO `u`@'%' (with
    the terminator [;]). In general the privileges are written in the
    order given, each one after the first preceded by a comma and a
    space. *)
Theorem grant_privileges_statement db :
  (exists err,
      filter is_mutating
        (trace (press execute run_query "asi"
                  (Btn_selected_privileges "u" "%" "GRANT"
                     ["SELECT"; "INSERT"]) db))
      = [Executed "GRANT SELECT, INSERT ON `asi`.* TO `u`@'%';" (Some [])
           err])
  /\ (forall schema gr_user gr_host p ps,
         let u := sanitize_user gr_user in
         let h := sanitize_host (Py.or_ gr_host "%") in
         Py.truthy u = true ->
         exists err,
           filter is_mutating
             (trace (press execute run_query schema
                       (Btn_selected_privileges gr_user gr_host "GRANT"
                          (p :: ps)) db))
           = [Executed
                ("GRANT " ++ p
                   ++ fold_right (fun q acc => (", " ++ q ++ acc)%string) "" ps
                   ++ " ON `" ++ schema ++ "`.* TO `" ++ u ++ "`@'" ++ h
                   ++ "';")
                (Some []) err]).
Proof.
  split.
  - cbn [press]. run_cases; eexists; reflexivity.
  - intros schema gr_user gr_host p ps u h Hu. subst u h. cbn [press].
    unfold grant_revoke_handler. rewrite Hu. cbn [negb orb is_nil].
    rewrite join_comma.
    run_cases; eexists; unfold grant_sql; cbn [filter];
      rewrite append_assoc; reflexivity.
Qed.

(** *** The host field *)

Lemma or_percent_empty : Py.or_ "" "%" = "%".
Proof. reflexivity. Qed.

Lemma or_percent_given (host : string) :
  Py.truthy host = true -> Py.or_ host "%" = host.
Proof. unfold Py.or_. now intros ->. Qed.

Lemma first_statements schema user host pw preset privs db :
  let u := sanitize_user user in
  let h := sanitize_host (Py.or_ host "%") in
  Py.truthy u = true -> Py.truthy pw = true -> privs <> [] ->
  first_sql (trace (press execute run_query schema
                      (Btn_create_user user host pw preset) db))
    = Some (create_user_sql u h)
  /\ first_sql (trace (press execute run_query schema
                         (Btn_update_password user host pw) db))
       = Some (alter_user_sql u h)
  /\ first_sql (trace (press execute run_query schema
                         (Btn_selected_privileges user host "GRANT" privs) db))
       = Some (grant_sql (Py.join ", " privs) schema u h)
  /\ first_sql (trace (press execute run_query schema
                         (Btn_selected_privileges user host "REVOKE" privs) db))
       = Some (revoke_sql (Py.join ", " privs) schema u h)
  /\ first_sql (trace (press execute run_query schema
                         (Btn_drop_user user host) db))
       = Some (drop_user_sql u h).
Proof.
  intros u h Hu Hp Hprivs. subst u h.
  destruct privs as [|p ps]; [contradiction|].
  cbn [press].
  unfold create_user_handler, update_password_handler, grant_revoke_handler,
    drop_user_handler.
  rewrite Hu, Hp. cbn [negb orb is_nil].
  repeat split; run_cases; reflexivity.
Qed.

(** C10. In the five handlers that take a host, an empty host field is
    replaced by [%] before it is sanitized, so the statement addresses
    host '%' and the input is not rejected; a host that is not empty but
    that the sanitizer empties is not rejected either: the statement is
    sent with the empty host ''. *)
Theorem empty_host_defaults_to_percent schema user pw preset privs db :
  let u := sanitize_user user in
  let first b := first_sql (trace (press execute run_query schema b db)) in
  Py.truthy u = true -> Py.truthy pw = true -> privs <> [] ->
  (first (Btn_create_user user "" pw preset) = Some (create_user_sql u "%")
   /\ first (Btn_update_password user "" pw) = Some (alter_user_sql u "%")
   /\ first (Btn_selected_privileges user "" "GRANT" privs)
        = Some (grant_sql (Py.join ", " privs) schema u "%")
   /\ first (Btn_selected_privileges user "" "REVOKE" privs)
        = Some (revoke_sql (Py.join ", " privs) schema u "%")
   /\ first (Btn_drop_user user "") = Some (drop_user_sql u "%"))
  /\ (forall host,
         Py.truthy host = true -> sanitize_host host = "" ->
         first (Btn_create_user user host pw preset)
           = Some (create_user_sql u "")
         /\ first (Btn_update_password user host pw)
              = Some (alter_user_sql u "")
         /\ first (Btn_selected_privileges user host "GRANT" privs)
              = Some (grant_sql (Py.join ", " privs) schema u "")
         /\ first (Btn_selected_privileges user host "REVOKE" privs)
              = Some (revoke_sql (Py.join ", " privs) schema u "")
         /\ first (Btn_drop_user user host) = Some (drop_user_sql u ""))
  /\ sanitize_host "!" = ""
  /\ drop_user_sql "bob" "%" = "DROP USER `bob`@'%';"
  /\ drop_user_sql "bob" "" = "DROP USER `bob`@'';".
Proof.
  intros u first Hu Hp Hprivs. subst first. split; [|split].
  - pose proof (first_statements schema user "" pw preset privs db
                  Hu Hp Hprivs) as H.
    rewrite or_percent_empty in H. exact H.
  - intros host Hh Hs.
    pose proof (first_statements schema user host pw preset privs db
                  Hu Hp Hprivs) as H.
    rewrite (or_percent_given host Hh), Hs in H. exact H.
  - repeat split.
Qed.

(** *** Show Grants *)

(** C1, at the input that breaks it. "Show Grants" hands the user and
    host fields to [get_grants] as they were typed: with the user field
    [x`@'%'; DROP USER `root] the text sent to the store carries the back
    quote, the quotes and the semicolon of the field, characters that
    [sanitize_user] would have removed. *)
Theorem show_grants_interpolates_raw_identifiers schema db rows :
  let sel_user := "x`@'%'; DROP USER `root" in
  run_query db list_users_sql = inl rows ->
  df_empty rows = false ->
  (exists err,
      trace (press execute run_query schema (Btn_show_grants sel_user "%") db)
      = [Queried list_users_sql;
         Executed "SHOW GRANTS FOR `x`@'%'; DROP USER `root`@'%';" None err])
  /\ chars_inb name_alphabet sel_user = false
  /\ sanitize_user sel_user = "xDROPUSERroot".
Proof.
  intros sel_user Hq He. subst sel_user. split; [|split; reflexivity].
  cbn [press]. unfold users_and_grants.
  rewrite bind_list_users, Hq, He.
  run_cases; eexists; reflexivity.
Qed.

(** C8, at the input that breaks it. "Show Grants" neither sanitizes nor
    validates: with the user field [!], which [sanitize_user] empties, the
    statement is sent to the store and no error is displayed. *)
Theorem show_grants_skips_validation schema db rows :
  let r := press execute run_query schema (Btn_show_grants "!" "%") db in
  run_query db list_users_sql = inl rows ->
  df_empty rows = false ->
  sanitize_user "!" = ""
  /\ (exists err,
         trace r = [Queried list_users_sql;
                    Executed "SHOW GRANTS FOR `!`@'%';" None err])
  /\ forallb (fun m => match m with StError _ => false | _ => true end)
       (screen r) = true.
Proof.
  intros r Hq He. subst r. split; [reflexivity|].
  cbn [press]. unfold users_and_grants.
  rewrite bind_list_users, Hq, He.
  run_cases; (split; [eexists; reflexivity | reflexivity]).
Qed.

(** The four sections that change accounts do validate: an empty
    sanitized name, or an empty selection of privileges, is answered by an
    error, and nothing is sent. *)
Lemma admin_buttons_validate schema b db :
  let r := press execute run_query schema b db in
  is_admin_button b = true ->
  sanitize_user (button_user b) = ""
  \/ (exists u h a, b = Btn_selected_privileges u h a []) ->
  trace r = [] /\ store r = db /\ exists m, screen r = [StError m].
Proof.
  intros r Hb H. subst r.
  destruct H as [Hu | (u & h & a & ->)].
  - destruct b; try discriminate; cbn [press button_user] in *;
      unfold create_user_handler, update_password_handler,
        grant_revoke_handler, drop_user_handler;
      rewrite Hu; cbn; eauto.
  - cbn [press]. unfold grant_revoke_handler. cbn [is_nil].
    rewrite orb_true_r. cbn; eauto.
Qed.

(** They interpolate sanitized identifiers only: every text they send is
    built from the sanitized user and the sanitized host. *)
Lemma admin_statements_use_sanitized_identifiers schema b db e :
  is_admin_button b = true ->
  In e (trace (press execute run_query schema b db)) ->
  built_from schema (sanitize_user (button_user b))
    (sanitize_host (Py.or_ (button_host b) "%")) (event_sql e).
Proof.
  intros Hb. destruct b; try discriminate;
    cbn [press button_user button_host]; run_cases; intros Hin;
    repeat (destruct Hin as [<- | Hin]); try contradiction;
    cbn [event_sql]; constructor.
Qed.

(** *** The executor and the readers, on every path *)

(** X8. [exec_admin] sends exactly one statement, with an argument tuple, and
    displays nothing. Its error is [None] exactly when the statement
    returned: the store is then what the statement left, committed, and the
    rows are handed back only when [fetch] is set. When it raised, the error
    is the store's text, no rows are handed back and the store is as
    before. *)
Theorem exec_admin_outcomes sql params fetch db :
  let r := exec_admin execute sql params fetch db in
  let args := Some (or_empty params) in
  trace r = [Executed sql args (snd (value r))]
  /\ screen r = []
  /\ (snd (value r) = None ->
      exists rows,
        execute db sql args = Returned (store r) rows
        /\ fst (value r) = if fetch then Some rows else None)
  /\ (forall msg,
         snd (value r) = Some msg ->
         store r = db /\ fst (value r) = None
         /\ exists dirty, execute db sql args = Raised dirty msg).
Proof.
  intros r args. subst r args. rewrite exec_admin_run.
  destruct (execute db sql (Some (or_empty params))) as [db' rows|dirty m];
    cbn [value store trace screen fst snd].
  - split; [reflexivity|]. split; [reflexivity|]. split.
    + intros _. now exists rows.
    + discriminate.
  - split; [reflexivity|]. split; [reflexivity|]. split.
    + discriminate.
    + intros msg' [= <-]. split; [reflexivity|]. split; [reflexivity|].
      now exists dirty.
Qed.

Lemma first_values_all (rows : list row) :
  forallb (fun r => negb (is_nil r)) rows = true ->
  first_values rows = Some (map first_value rows).
Proof.
  induction rows as [|r rows IH]; simpl; [reflexivity|].
  destruct r as [|[k v] r]; simpl; [discriminate|].
  intros H. now rewrite (IH H).
Qed.

(** X9. When SHOW GRANTS returns rows that all have a column, [get_grants]
    gives a frame with one row per fetched row, in the same order, whose
    single column [Grant] holds the first value of the row; the frame is
    empty exactly when no row was fetched, and nothing is displayed. *)
Theorem get_grants_frame user host db db' rows :
  let r := get_grants execute user host db in
  execute db (show_grants_sql user host) None = Returned db' rows ->
  forallb (fun r => negb (is_nil r)) rows = true ->
  value r = map (fun x => [("Grant", first_value x)]) rows
  /\ length (value r) = length rows
  /\ df_empty (value r) = is_nil rows
  /\ store r = db'
  /\ screen r = [].
Proof.
  intros r He Hrows. subst r. unfold get_grants. cbn [get_connection pending].
  rewrite He, (first_values_all rows Hrows).
  cbn [value store screen commit close committed pending].
  rewrite map_map. repeat split.
  - now rewrite length_map.
  - destruct rows; reflexivity.
Qed.

(** *** Section "Users & Grants" *)

(** X10. When the list of users cannot be read or is empty, the section shows
    the information that no users are listed and sends nothing but the
    listing query, whatever the fields hold and whether or not the button
    was pressed; the store is untouched. *)
Theorem users_list_gates_show_grants sel_user sel_host clicked db :
  let r := users_and_grants execute run_query sel_user sel_host clicked db in
  let no_users :=
    StInfo
      "No users listed or insufficient privileges to read `mysql.user`." in
  (forall e,
      run_query db list_users_sql = inr e ->
      trace r = [Queried list_users_sql] /\ store r = db
      /\ screen r
         = [StWarning ("Could not list users (need admin privileges): " ++ e);
            no_users])
  /\ (forall rows,
         run_query db list_users_sql = inl rows -> df_empty rows = true ->
         trace r = [Queried list_users_sql] /\ store r = db
         /\ screen r = [no_users]).
Proof.
  intros r no_users. subst r no_users. unfold users_and_grants.
  rewrite bind_list_users. split.
  - intros e ->. repeat split.
  - intros rows -> ->. repeat split.
Qed.

(** X11. With users listed, pressing "Show Grants" while the user field or the
    host field is empty sends nothing to the store beyond the listing and
    displays nothing beyond the list of users: no error, no warning. *)
Theorem show_grants_empty_field schema sel_user sel_host db rows :
  let r := press execute run_query schema
             (Btn_show_grants sel_user sel_host) db in
  run_query db list_users_sql = inl rows ->
  df_empty rows = false ->
  sel_user = "" \/ sel_host = "" ->
  trace r = [Queried list_users_sql]
  /\ store r = db
  /\ screen r = [StDataframe rows].
Proof.
  intros r Hq He Hf. subst r. cbn [press]. unfold users_and_grants.
  rewrite bind_list_users, Hq, He. unfold show_grants_handler.
  destruct Hf as [-> | ->]; [|rewrite andb_false_r]; repeat split.
Qed.

(** X12. When the SHOW GRANTS statement raises, the section reports it twice:
    a warning with the store's text, then the information that no grants
    were returned. No error is displayed and the store is as before. *)
Theorem show_grants_failure_reported
    schema sel_user sel_host db rows dirty msg :
  let r := press execute run_query schema
             (Btn_show_grants sel_user sel_host) db in
  run_query db list_users_sql = inl rows ->
  df_empty rows = false ->
  Py.truthy sel_user = true -> Py.truthy sel_host = true ->
  execute db (show_grants_sql sel_user sel_host) None = Raised dirty msg ->
  screen r = [StDataframe rows;
              StWarning (could_not_fetch sel_user sel_host msg);
              StInfo "No grants returned."]
  /\ trace r = [Queried list_users_sql;
                Executed (show_grants_sql sel_user sel_host) None (Some msg)]
  /\ store r = db.
Proof.
  intros r Hq He Hu Hh Hx. subst r. cbn [press]. unfold users_and_grants.
  rewrite bind_list_users, Hq, He. unfold show_grants_handler.
  rewrite Hu, Hh. cbn [andb]. revert Hx.
  run_cases; intros Hx; try discriminate; inversion Hx; subst;
    repeat split.
Qed.

(** *** The account-changing handlers *)

Lemma rejected_nothing_sent schema b db :
  is_admin_button b = true -> rejected b = true ->
  press execute run_query schema b db
  = {| value := tt; store := db; trace := [];
       screen := [StError (rejection_message b)] |}.
Proof.
  intros Hb Hr. destruct b; try discriminate; cbn [press rejected] in *;
    unfold create_user_handler, update_password_handler,
      grant_revoke_handler, drop_user_handler;
    rewrite Hr; reflexivity.
Qed.

Lemma accepted_something_sent schema b db :
  is_admin_button b = true -> rejected b = false ->
  trace (press execute run_query schema b db) <> [].
Proof.
  intros Hb Hr. destruct b; try discriminate; cbn [press rejected] in *;
    unfold create_user_handler, update_password_handler,
      grant_revoke_handler, drop_user_handler;
    rewrite Hr; run_cases; discriminate.
Qed.

(** X13. An account-changing handler sends nothing exactly when its fields fail
    its test: the sanitized user name is empty, or the password of "Create
    User" or "Change Password" is empty, or no privilege is selected. It
    then displays its one error and leaves the store untouched. *)
Theorem validation_decides_sending schema b db :
  let r := press execute run_query schema b db in
  is_admin_button b = true ->
  (trace r = [] <-> rejected b = true)
  /\ (rejected b = true ->
      store r = db /\ screen r = [StError (rejection_message b)]).
Proof.
  intros r Hb. subst r. split; [split|].
  - intros Ht. destruct (rejected b) eqn:Hr; [reflexivity|].
    destruct (accepted_something_sent schema b db Hb Hr Ht).
  - intros Hr. now rewrite (rejected_nothing_sent schema b db Hb Hr).
  - intros Hr. now rewrite (rejected_nothing_sent schema b db Hb Hr).
Qed.

(** X14. When the first statement of an account-changing handler raises with an
    error text, the handler displays one error, made of the name of the
    statement, [failed:] and the store's text; it sends nothing else and the
    store is as before. *)
Theorem first_statement_failure_reported schema b db sql args msg rest :
  let r := press execute run_query schema b db in
  is_admin_button b = true ->
  trace r = Executed sql args (Some msg) :: rest ->
  msg <> "" ->
  rest = []
  /\ store r = db
  /\ screen r = [StError (failure_label b ++ " failed: " ++ msg)].
Proof.
  intros r Hb. subst r.
  destruct b; try discriminate; cbn [press failure_label]; run_cases;
    intros Ht Hm; inversion Ht; subst; try congruence; repeat split.
Qed.

Lemma flushes_zero (t : list event) :
  flushes t = 0 <-> existsb is_flush t = false.
Proof.
  unfold flushes. induction t as [|e t IH]; simpl; [tauto|].
  destruct (is_flush e); simpl; [split; discriminate | exact IH].
Qed.

Lemma error_iff_no_flush_check schema b db :
  let r := press execute run_query schema b db in
  is_admin_button b = true ->
  existsb is_error (screen r) = negb (existsb is_flush (trace r)).
Proof.
  intros r Hb. subst r.
  destruct b; try discriminate; cbn [press]; by_cases.
Qed.

(** X15. An account-changing handler displays an error exactly when it sends no
    FLUSH PRIVILEGES. In particular the outcome of the flush itself is
    never reported: when the flush raises, no error is displayed. *)
Theorem error_iff_no_flush schema b db :
  let r := press execute run_query schema b db in
  is_admin_button b = true ->
  (existsb is_error (screen r) = true <-> flushes (trace r) = 0)
  /\ (forall pre args msg post,
         trace r = pre ++ Executed flush_sql args (Some msg) :: post ->
         existsb is_error (screen r) = false).
Proof.
  intros r Hb.
  pose proof (error_iff_no_flush_check schema b db Hb) as H. fold r in H.
  split.
  - rewrite H, flushes_zero, negb_true_iff. tauto.
  - intros pre args msg post Ht. rewrite H, Ht, existsb_app. simpl.
    now rewrite orb_true_r.
Qed.

Lemma untouched_check schema b db :
  let r := press execute run_query schema b db in
  forallb (fun e => failed e || is_query e) (trace r) = true -> store r = db.
Proof. destruct b; cbn [press]; by_cases. Qed.

(** X16. Whatever button is pressed, when every statement the run sent raised
    (reads of the user list apart), the store is left as it was. *)
Theorem all_failed_store_untouched schema b db :
  let r := press execute run_query schema b db in
  (forall e, In e (trace r) -> failed e = true \/ is_query e = true) ->
  store r = db.
Proof.
  intros r H. apply (untouched_check schema b db). fold r.
  apply forallb_forall. intros e He. apply orb_true_iff. auto.
Qed.

(** X17. A first statement that raises with an empty error text is taken for
    a success: the handler goes on, sends further statements and opens its
    display with a success message. *)
Theorem empty_error_text_taken_for_success schema b db sql args rest :
  let r := press execute run_query schema b db in
  is_admin_button b = true ->
  trace r = Executed sql args (Some "") :: rest ->
  rest <> []
  /\ (exists m more, screen r = StSuccess m :: more)
  /\ exists dirty, execute db sql args = Raised dirty "".
Proof.
  intros r Hb. subst r.
  destruct b; try discriminate; cbn [press]; run_cases;
    intros Ht; inversion Ht; subst;
    (split; [discriminate | split; [eexists; eexists; reflexivity | eauto]]).
Qed.

Lemma list_refresh_check schema b db :
  let r := press execute run_query schema b db in
  is_admin_button b = true ->
  existsb is_query (trace r) = refreshes_list b && existsb is_flush (trace r).
Proof.
  intros r Hb. subst r.
  destruct b; try discriminate; cbn [press refreshes_list]; by_cases.
Qed.

(** X18. The user list is read again by "Create User" and "Drop User" exactly
    when they sent their flush, as the last thing they send; "Change
    Password" and the grant handler never read it. *)
Theorem list_refresh_after_success schema b db :
  let r := press execute run_query schema b db in
  is_admin_button b = true ->
  (existsb is_query (trace r) = true
   <-> refreshes_list b = true /\ flushes (trace r) <> 0)
  /\ (forall pre sql post,
         trace r = pre ++ Queried sql :: post ->
         post = [] /\ sql = list_users_sql).
Proof.
  intros r Hb. split.
  - pose proof (list_refresh_check schema b db Hb) as H. fold r in H.
    rewrite H, andb_true_iff, flushes_zero.
    destruct (existsb is_flush (trace r)); intuition congruence.
  - subst r. destruct b; try discriminate; cbn [press]; run_cases;
      intros pre sql post Ht;
      repeat (destruct pre as [|? pre];
              [inversion Ht; subst; try discriminate; auto
              | inversion Ht; subst; clear Ht;
                match goal with
                | X : _ = _ ++ _ :: _ |- _ => rename X into Ht
                end]);
      try (destruct pre; discriminate).
Qed.

(** *** The statements the handlers send when all goes well *)

(** X19. "Create User" with each option of the preset box, when no statement
    raises: CREATE USER, then the grant of the option (SELECT; SELECT,
    INSERT, UPDATE, DELETE, EXECUTE; ALL PRIVILEGES; none for "None"), then
    the flush and the listing. The page announces the creation and then
    that the preset was applied, for "None" as well. *)
Theorem create_user_presets schema new_user new_host new_password preset db :
  let u := sanitize_user new_user in
  let h := sanitize_host (Py.or_ new_host "%") in
  let r := create_user_handler execute run_query schema new_user new_host
             new_password preset db in
  let texts := map event_sql (trace r) in
  Py.truthy u = true -> Py.truthy new_password = true ->
  existsb failed (trace r) = false ->
  (preset = ReadOnly ->
   texts = [create_user_sql u h; grant_select_sql schema u h; flush_sql;
            list_users_sql])
  /\ (preset = ReadWrite ->
      texts = [create_user_sql u h; grant_read_write_sql schema u h;
               flush_sql; list_users_sql])
  /\ (preset = Admin ->
      texts = [create_user_sql u h; grant_all_sql schema u h; flush_sql;
               list_users_sql])
  /\ (preset = NoPreset ->
      texts = [create_user_sql u h; flush_sql; list_users_sql])
  /\ (In preset preset_options ->
      firstn 2 (screen r)
      = [StSuccess (user_created_msg u h);
         StSuccess (preset_applied_msg preset schema)]).
Proof.
  intros u h r texts Hu Hp. subst texts r u h.
  unfold create_user_handler. rewrite Hu, Hp. cbn [negb orb].
  intros Hf.
  split; [|split; [|split; [|split]]];
    [intros -> | intros -> | intros -> | intros ->
    | intros [<- | [<- | [<- | [<- | []]]]]];
    revert Hf; run_cases; intros Hf;
    try (vm_compute in Hf; discriminate); reflexivity.
Qed.

(** X20. "Change Password", the grant handler and "Drop User", when no
    statement raises: the one statement, then the flush (and the listing
    for "Drop User"), and one success message. *)
Theorem single_statement_success
    schema user host password action privs db :
  let u := sanitize_user user in
  let h := sanitize_host (Py.or_ host "%") in
  let run b := press execute run_query schema b db in
  let texts b := map event_sql (trace (run b)) in
  let quiet b := existsb failed (trace (run b)) = false in
  Py.truthy u = true -> Py.truthy password = true -> privs <> [] ->
  (quiet (Btn_update_password user host password) ->
   texts (Btn_update_password user host password)
   = [alter_user_sql u h; flush_sql]
   /\ screen (run (Btn_update_password user host password))
      = [StSuccess (password_updated_msg u h)])
  /\ (quiet (Btn_selected_privileges user host action privs) ->
      texts (Btn_selected_privileges user host action privs)
      = [(if (action =? "GRANT")%string
          then grant_sql (Py.join ", " privs) schema u h
          else revoke_sql (Py.join ", " privs) schema u h); flush_sql]
      /\ screen (run (Btn_selected_privileges user host action privs))
         = [StSuccess (action_successful_msg action u h schema)])
  /\ (quiet (Btn_drop_user user host) ->
      texts (Btn_drop_user user host)
      = [drop_user_sql u h; flush_sql; list_users_sql]
      /\ firstn 1 (screen (run (Btn_drop_user user host)))
         = [StSuccess (user_dropped_msg u h)]).
Proof.
  intros u h run texts quiet Hu Hp Hprivs. subst quiet texts run u h.
  destruct privs as [|p ps]; [contradiction|].
  cbn [press].
  unfold update_password_handler, grant_revoke_handler, drop_user_handler.
  rewrite Hu, Hp. cbn [negb orb is_nil].
  split; [|split]; intros Hf; revert Hf; run_cases; intros Hf;
    try (vm_compute in Hf; discriminate); split; reflexivity.
Qed.

(** X21. "REVOKE Selected Privileges", and any action that is not GRANT, sends
    exactly one mutating statement: REVOKE, the privileges in the order
    given, each one after the first preceded by a comma and a space, ON the
    schema FROM the sanitized user and host. *)
Theorem revoke_privileges_statement schema gr_user gr_host action p ps db :
  let u := sanitize_user gr_user in
  let h := sanitize_host (Py.or_ gr_host "%") in
  Py.truthy u = true ->
  action <> "GRANT" ->
  exists err,
    filter is_mutating
      (trace (press execute run_query schema
                (Btn_selected_privileges gr_user gr_host action (p :: ps))
                db))
    = [Executed
         ("REVOKE " ++ p
            ++ fold_right (fun q acc => (", " ++ q ++ acc)%string) "" ps
            ++ " ON `" ++ schema ++ "`.* FROM `" ++ u ++ "`@'" ++ h ++ "';")
         (Some []) err].
Proof.
  intros u h Hu Ha. subst u h. cbn [press].
  unfold grant_revoke_handler. rewrite Hu. cbn [negb orb is_nil].
  apply String.eqb_neq in Ha. rewrite Ha. rewrite join_comma.
  run_cases; eexists; unfold revoke_sql; cbn [filter];
    rewrite append_assoc; reflexivity.
Qed.

(** X22. Every text an account-changing handler sends to the store is one of
    the fixed texts or is built from a user name that has only characters
    of [A-Za-z0-9_] and a host that has only characters of
    [A-Za-z0-9_%.:-]: no quote, back quote, semicolon or space of a field
    reaches a statement. *)
Theorem admin_statements_identifier_alphabet schema b db e :
  is_admin_button b = true ->
  In e (trace (press execute run_query schema b db)) ->
  exists u h,
    chars_in name_alphabet u /\ chars_in host_alphabet h
    /\ built_from schema u h (event_sql e).
Proof.
  intros Hb He.
  exists (sanitize_user (button_user b)),
         (sanitize_host (Py.or_ (button_host b) "%")).
  split; [apply sanitize_user_chars|].
  split; [apply sanitize_host_chars|].
  exact (admin_statements_use_sanitized_identifiers schema b db e Hb He).
Qed.

(** *** Failures that carry no text *)

(** C7, at the input that breaks it. When the CREATE USER of "Create
    User" returns and the GRANT of the preset raises an exception whose
    text is empty, [if err:] is false: the page shows no error, announces
    the creation and then that the preset was applied, and goes on to send
    the flush. The failed grant is not told apart from a success. *)
Theorem grant_failure_with_empty_text_unreported
    schema new_user new_host new_password preset db c pc g pg rest :
  let u := sanitize_user new_user in
  let h := sanitize_host (Py.or_ new_host "%") in
  let r := create_user_handler execute run_query schema new_user new_host
             new_password preset db in
  trace r = Executed c pc None :: Executed g pg (Some "") :: rest ->
  String.prefix "GRANT" g = true ->
  existsb is_error (screen r) = false
  /\ firstn 2 (screen r)
     = [StSuccess (user_created_msg u h);
        StSuccess (preset_applied_msg preset schema)]
  /\ (exists err more, rest = Executed flush_sql (Some []) err :: more)
  /\ exists db1 rows dirty,
       execute db c pc = Returned db1 rows
       /\ execute db1 g pg = Raised dirty "".
Proof.
  intros u h r. subst r u h.
  run_cases; intros Ht Hg; inversion Ht; subst;
    try (vm_compute in Hg; discriminate);
    (split; [reflexivity|]); (split; [reflexivity|]);
    (split; [eexists; eexists; reflexivity | eauto]).
Qed.


End Runs.

(** * Further properties of the sanitizers and of [db_name] *)

Section StripFacts.

Variable keep : ascii -> bool.

Lemma re_sub_strip_app (s1 s2 : string) :
  Py.re_sub_strip keep (s1 ++ s2)
  = (Py.re_sub_strip keep s1 ++ Py.re_sub_strip keep s2)%string.
Proof.
  induction s1 as [|a s1 IH]; simpl; [reflexivity|].
  destruct (keep a); simpl; now rewrite IH.
Qed.

Lemma re_sub_strip_length (s : string) :
  String.length (Py.re_sub_strip keep s) <= String.length s.
Proof.
  induction s as [|a s IH]; simpl; [lia|].
  destruct (keep a); simpl; lia.
Qed.

Lemma re_sub_strip_same_length (s : string) :
  String.length (Py.re_sub_strip keep s) = String.length s ->
  forallb keep (list_ascii_of_string s) = true.
Proof.
  induction s as [|a s IH]; simpl; [reflexivity|].
  destruct (keep a); simpl; intros H.
  - apply IH. lia.
  - pose proof (re_sub_strip_length s). lia.
Qed.

Lemma re_sub_strip_fixed_iff (s : string) :
  Py.re_sub_strip keep s = s <-> forallb keep (list_ascii_of_string s) = true.
Proof.
  split.
  - intros H. apply re_sub_strip_same_length. now rewrite H.
  - apply re_sub_strip_id.
Qed.

Lemma re_sub_strip_empty_iff (s : string) :
  Py.re_sub_strip keep s = ""
  <-> forall c, In c (list_ascii_of_string s) -> keep c = false.
Proof.
  induction s as [|a s IH]; simpl.
  - split; [intros _ c [] | reflexivity].
  - destruct (keep a) eqn:Ka.
    + split; [discriminate|].
      intros H. rewrite (H a) in Ka; [discriminate | now left].
    + rewrite IH. split.
      * intros H c [<- | Hc]; auto.
      * intros H c Hc. apply H. now right.
Qed.

End StripFacts.

Lemma In_mem_ascii (c : ascii) (alphabet : string) :
  In c (list_ascii_of_string alphabet) -> mem_ascii c alphabet = true.
Proof.
  intros H. unfold mem_ascii. apply existsb_exists.
  exists c. split; [assumption | apply Ascii.eqb_refl].
Qed.

Lemma forallb_same {A} (f g : A -> bool) (l : list A) :
  (forall x, f x = g x) -> forallb f l = forallb g l.
Proof.
  intros H. induction l as [|x l IH]; simpl; [reflexivity|].
  now rewrite H, IH.
Qed.

Lemma forallb_user_class (s : string) :
  forallb user_class (list_ascii_of_string s) = chars_inb name_alphabet s.
Proof.
  unfold chars_inb. apply forallb_same. intros c. apply user_class_alphabet.
Qed.

Lemma forallb_host_class (s : string) :
  forallb host_class (list_ascii_of_string s) = chars_inb host_alphabet s.
Proof.
  unfold chars_inb. apply forallb_same. intros c. apply host_class_alphabet.
Qed.

Lemma user_class_host_class (c : ascii) :
  user_class c = true -> host_class c = true.
Proof.
  destruct c as [b0 b1 b2 b3 b4 b5 b6 b7];
    destruct b0, b1, b2, b3, b4, b5, b6, b7; vm_compute; auto.
Qed.

(** X2. Sanitizing twice is sanitizing once: a sanitized identifier is left as
    it is by its sanitizer. *)
Theorem sanitizers_idempotent (s : string) :
  sanitize_user (sanitize_user s) = sanitize_user s
  /\ sanitize_host (sanitize_host s) = sanitize_host s.
Proof. split; apply re_sub_strip_idempotent. Qed.

(** X3. The sanitizers drop nothing that is allowed: a string comes back
    unchanged exactly when all its characters are in the alphabet of the
    field. *)
Theorem sanitizers_fix_valid_identifiers (s : string) :
  (sanitize_user s = s <-> chars_inb name_alphabet s = true)
  /\ (sanitize_host s = s <-> chars_inb host_alphabet s = true).
Proof.
  split.
  - rewrite <- forallb_user_class. apply re_sub_strip_fixed_iff.
  - rewrite <- forallb_host_class. apply re_sub_strip_fixed_iff.
Qed.

(** X4. The sanitizers judge every character on its own: the sanitized
    concatenation is the concatenation of the sanitized parts. *)
Theorem sanitizers_concat (s1 s2 : string) :
  sanitize_user (s1 ++ s2) = (sanitize_user s1 ++ sanitize_user s2)%string
  /\ sanitize_host (s1 ++ s2) = (sanitize_host s1 ++ sanitize_host s2)%string.
Proof. split; apply re_sub_strip_app. Qed.

(** X5. Whatever is allowed in a user name is allowed in a host: sanitizing a
    sanitized host as a user name gives the sanitized user name, which is a
    subsequence of the sanitized host. *)
Theorem sanitize_user_of_sanitized_host (s : string) :
  sanitize_user (sanitize_host s) = sanitize_user s
  /\ subseq (sanitize_user s) (sanitize_host s).
Proof.
  assert (E : sanitize_user (sanitize_host s) = sanitize_user s).
  { unfold sanitize_user, sanitize_host.
    induction s as [|a s IH]; simpl; [reflexivity|].
    destruct (host_class a) eqn:Ha; simpl.
    - destruct (user_class a); now rewrite IH.
    - destruct (user_class a) eqn:Ua; [|exact IH].
      apply user_class_host_class in Ua. congruence. }
  split; [exact E|].
  rewrite <- E. apply re_sub_strip_subseq.
Qed.

(** X6. A sanitizer never lengthens its input, and keeps its length only when
    it changes nothing. *)
Theorem sanitizers_length (s : string) :
  String.length (sanitize_user s) <= String.length s
  /\ String.length (sanitize_host s) <= String.length s
  /\ (String.length (sanitize_user s) = String.length s ->
      sanitize_user s = s)
  /\ (String.length (sanitize_host s) = String.length s ->
      sanitize_host s = s).
Proof.
  repeat split; try apply re_sub_strip_length;
    intros H; apply re_sub_strip_id, re_sub_strip_same_length, H.
Qed.

(** X7. The sanitized name is empty, and the handlers reject the input,
    exactly when no character of the field is in the alphabet. *)
Theorem sanitizers_empty_iff (s : string) :
  (sanitize_user s = ""
   <-> forall c, In c (list_ascii_of_string s) ->
                 ~ In c (list_ascii_of_string name_alphabet))
  /\ (sanitize_host s = ""
      <-> forall c, In c (list_ascii_of_string s) ->
                    ~ In c (list_ascii_of_string host_alphabet)).
Proof.
  split.
  - unfold sanitize_user. rewrite re_sub_strip_empty_iff.
    split; intros H c Hc.
    + intros Hin. apply In_mem_ascii in Hin.
      rewrite <- user_class_alphabet, (H c Hc) in Hin. discriminate.
    + destruct (user_class c) eqn:U; [|reflexivity].
      rewrite user_class_alphabet in U. apply mem_ascii_In in U.
      destruct (H c Hc U).
  - unfold sanitize_host. rewrite re_sub_strip_empty_iff.
    split; intros H c Hc.
    + intros Hin. apply In_mem_ascii in Hin.
      rewrite <- host_class_alphabet, (H c Hc) in Hin. discriminate.
    + destruct (host_class c) eqn:U; [|reflexivity].
      rewrite host_class_alphabet in U. apply mem_ascii_In in U.
      destruct (H c Hc U).
Qed.

Lemma session_get_missing st key default :
  (forall v, ~ In (key, v) st) -> session_get st key default = default.
Proof.
  induction st as [|[k v] st IH]; simpl; [reflexivity|].
  intros H. destruct (String.eqb_spec k key) as [-> | _].
  - destruct (H v). now left.
  - apply IH. intros w Hw. apply (H w). now right.
Qed.

(** X1. [db_name] answers ["asi"] when the session state has no schema
    configured, and the configured schema otherwise. *)
Theorem db_name_default (st : list (string * string)) :
  ((forall v, ~ In ("db_name", v) st) -> db_name st = "asi")
  /\ (forall pre v post,
         st = pre ++ ("db_name", v) :: post ->
         (forall w, ~ In ("db_name", w) pre) ->
         db_name st = v).
Proof.
  split.
  - apply session_get_missing.
  - intros pre v post -> H. unfold db_name.
    induction pre as [|[k w] pre IH]; simpl.
    + reflexivity.
    + destruct (String.eqb_spec k "db_name") as [-> | _].
      * destruct (H w). now left.
      * apply IH. intros x Hx. apply (H x). now right.
Qed.


(** * The page on the small store

    The properties above, applied to runs of the page on [Toy]. *)

(** The claim C2 as it is stated fails for the two statements of "Create
    User": on a store that refuses the preset grant, the second statement
    raises, and the store is not as it was before the first: the user
    stays created. *)
Lemma created_user_survives_failed_grant :
  let db : Toy.DB := [] in
  let r := press Toy.execute Toy.run_query "nosuchdb"
             (Btn_create_user "bob" "%" "pw" ReadOnly) db in
  trace r
  = [Executed "CREATE USER `bob`@'%' IDENTIFIED BY %s;" (Some ["pw"]) None;
     Executed "GRANT SELECT ON `nosuchdb`.* TO `bob`@'%';" (Some [])
       (Some "(1049, 'Unknown database')")]
  /\ existsb failed (trace r) = true
  /\ store r = ["CREATE USER `bob`@'%' IDENTIFIED BY %s;"]
  /\ store r <> db.
Proof. repeat split. discriminate. Qed.

Lemma exec_admin_statement_is_its_own_unit_witness :
  let grant :=
    Executed "GRANT SELECT ON `nosuchdb`.* TO `bob`@'%';" (Some [])
      (Some "(1049, 'Unknown database')") in
  let r := create_user_handler Toy.execute Toy.run_query "nosuchdb" "bob" "%"
             "pw" ReadOnly [] in
  (In grant (trace r)
   /\ mutating_failed grant = true /\ failed_silently grant = false)
  /\ store r = ["CREATE USER `bob`@'%' IDENTIFIED BY %s;"].
Proof.
  intros grant r.
  assert (Hin : In grant (trace r)) by (right; left; reflexivity).
  split; [repeat split; exact Hin|].
  exact (proj2 (proj2
           (exec_admin_statement_is_its_own_unit Toy.execute Toy.run_query))
           "nosuchdb" "bob" "%" "pw" ReadOnly [] _ [] grant
           eq_refl eq_refl eq_refl Hin eq_refl eq_refl).
Defined.

Lemma secret_only_in_bound_parameters_witness :
  let c1 := trace (create_user_handler Toy.execute Toy.run_query "asi" "bob"
                     "%" "first" ReadOnly []) in
  let c2 := trace (create_user_handler Toy.execute Toy.run_query "asi" "bob"
                     "%" "second" ReadOnly []) in
  let e1 := Executed "CREATE USER `bob`@'%' IDENTIFIED BY %s;"
              (Some ["first"]) None in
  let e2 := Executed "CREATE USER `bob`@'%' IDENTIFIED BY %s;"
              (Some ["second"]) None in
  (nth_error c1 0 = Some e1 /\ nth_error c2 0 = Some e2)
  /\ event_sql e1 = event_sql e2.
Proof.
  intros c1 c2 e1 e2. split; [split; reflexivity|].
  exact (proj1 (secret_only_in_bound_parameters Toy.execute Toy.run_query
                  "asi" "bob" "%" ReadOnly "bob" "%" "first" "second" [])
           0 e1 e2 eq_refl eq_refl).
Defined.

Lemma create_user_read_only_statements_witness :
  Toy.execute [] "CREATE USER `app_user`@'%' IDENTIFIED BY %s;" (Some ["p"])
  = Returned ["CREATE USER `app_user`@'%' IDENTIFIED BY %s;"] []
  /\ exists err,
       filter is_mutating
         (trace (press Toy.execute Toy.run_query "asi"
                   (Btn_create_user "app_user" "%" "p" ReadOnly) []))
       = [Executed "CREATE USER `app_user`@'%' IDENTIFIED BY %s;"
            (Some ["p"]) None;
          Executed "GRANT SELECT ON `asi`.* TO `app_user`@'%';" (Some [])
            err].
Proof.
  split; [reflexivity|].
  exact (proj1 (proj2
           (create_user_read_only_statements Toy.execute Toy.run_query []))
           _ _ eq_refl).
Defined.

Lemma grant_privileges_statement_witness :
  Py.truthy (sanitize_user "u") = true
  /\ exists err,
       filter is_mutating
         (trace (press Toy.execute Toy.run_query "asi"
                   (Btn_selected_privileges "u" "%" "GRANT"
                      ["SELECT"; "INSERT"; "UPDATE"]) []))
       = [Executed "GRANT SELECT, INSERT, UPDATE ON `asi`.* TO `u`@'%';"
            (Some []) err].
Proof.
  split; [reflexivity|].
  exact (proj2 (grant_privileges_statement Toy.execute Toy.run_query [])
           "asi" "u" "%" "SELECT" ["INSERT"; "UPDATE"] eq_refl).
Defined.

Lemma create_user_partial_success_reported_witness :
  let r := create_user_handler Toy.execute Toy.run_query "nosuchdb" "bob" "%"
             "pw" ReadOnly [] in
  let msg := "(1049, 'Unknown database')" in
  (trace r
   = [Executed "CREATE USER `bob`@'%' IDENTIFIED BY %s;" (Some ["pw"]) None;
      Executed "GRANT SELECT ON `nosuchdb`.* TO `bob`@'%';" (Some [])
        (Some msg)]
   /\ String.prefix "GRANT" "GRANT SELECT ON `nosuchdb`.* TO `bob`@'%';"
      = true
   /\ msg <> "")
  /\ screen r = [StSuccess "User `bob`@'%' created.";
                 StError "Grant failed: (1049, 'Unknown database')"].
Proof.
  intros r msg.
  assert (Hmsg : msg <> "") by discriminate.
  split; [repeat split; exact Hmsg|].
  exact (proj1 (create_user_partial_success_reported Toy.execute
                  Toy.run_query "nosuchdb" "bob" "%" "pw" ReadOnly [] _ _ _ _
                  msg [] eq_refl eq_refl Hmsg)).
Defined.

Lemma show_grants_interpolates_raw_identifiers_witness :
  (Toy.run_query [] list_users_sql
   = inl [[("User", "root"); ("Host", "localhost")]]
   /\ df_empty [[("User", "root"); ("Host", "localhost")]] = false)
  /\ exists err,
       trace (press Toy.execute Toy.run_query "asi"
                (Btn_show_grants "x`@'%'; DROP USER `root" "%") [])
       = [Queried list_users_sql;
          Executed "SHOW GRANTS FOR `x`@'%'; DROP USER `root`@'%';" None err].
Proof.
  split; [split; reflexivity|].
  exact (proj1 (show_grants_interpolates_raw_identifiers Toy.execute
                  Toy.run_query "asi" [] _ eq_refl eq_refl)).
Defined.

Lemma show_grants_skips_validation_witness :
  (Toy.run_query [] list_users_sql
   = inl [[("User", "root"); ("Host", "localhost")]]
   /\ df_empty [[("User", "root"); ("Host", "localhost")]] = false)
  /\ exists err,
       trace (press Toy.execute Toy.run_query "asi"
                (Btn_show_grants "!" "%") [])
       = [Queried list_users_sql;
          Executed "SHOW GRANTS FOR `!`@'%';" None err].
Proof.
  split; [split; reflexivity|].
  exact (proj1 (proj2 (show_grants_skips_validation Toy.execute
                         Toy.run_query "asi" [] _ eq_refl eq_refl))).
Defined.

Lemma flush_once_after_success_witness :
  let t := trace (press Toy.execute Toy.run_query "asi"
                    (Btn_drop_user "bob" "") []) in
  (existsb mutating_failed_silently t = false
   /\ existsb is_mutating t = true /\ existsb mutating_failed t = false)
  /\ flushes t = 1.
Proof.
  intros t. split; [repeat split|].
  exact (proj1 (flush_once_after_success Toy.execute Toy.run_query "asi"
                  (Btn_drop_user "bob" "") [] eq_refl) eq_refl eq_refl).
Defined.

Lemma empty_host_defaults_to_percent_witness :
  (Py.truthy (sanitize_user "bob") = true /\ Py.truthy "pw" = true
   /\ ["SELECT"] <> [])
  /\ first_sql (trace (press Toy.execute Toy.run_query "asi"
                         (Btn_drop_user "bob" "") []))
     = Some "DROP USER `bob`@'%';"
  /\ first_sql (trace (press Toy.execute Toy.run_query "asi"
                         (Btn_drop_user "bob" "!") []))
     = Some "DROP USER `bob`@'';".
Proof.
  assert (Hp : ["SELECT"] <> @nil string) by discriminate.
  pose proof (empty_host_defaults_to_percent Toy.execute Toy.run_query "asi"
                "bob" "pw" ReadOnly ["SELECT"] [] eq_refl eq_refl Hp) as H.
  split; [repeat split; exact Hp|]. split.
  - exact (proj2 (proj2 (proj2 (proj2 (proj1 H))))).
  - exact (proj2 (proj2 (proj2 (proj2
             (proj1 (proj2 H) "!" eq_refl eq_refl))))).
Defined.

(** ** Further runs on the small store *)

Lemma sanitizers_fix_valid_identifiers_witness :
  chars_inb name_alphabet "app_user" = true
  /\ sanitize_user "app_user" = "app_user".
Proof.
  split; [reflexivity|].
  exact (proj2 (proj1 (sanitizers_fix_valid_identifiers "app_user")) eq_refl).
Defined.

Lemma sanitizers_length_witness :
  String.length (sanitize_host "10.0.0.%") = String.length "10.0.0.%"
  /\ sanitize_host "10.0.0.%" = "10.0.0.%".
Proof.
  split; [reflexivity|].
  exact (proj2 (proj2 (proj2 (sanitizers_length "10.0.0.%"))) eq_refl).
Defined.

Lemma sanitizers_empty_iff_witness :
  sanitize_user "'; -" = ""
  /\ forall c, In c (list_ascii_of_string "'; -") ->
               ~ In c (list_ascii_of_string name_alphabet).
Proof.
  split; [reflexivity|].
  exact (proj1 (proj1 (sanitizers_empty_iff "'; -")) eq_refl).
Defined.

Lemma db_name_default_witness :
  (forall v, ~ In ("db_name", v) [("theme", "dark")])
  /\ db_name [("theme", "dark")] = "asi"
  /\ db_name [("theme", "dark"); ("db_name", "inventory")] = "inventory".
Proof.
  assert (H : forall v, ~ In ("db_name", v) [("theme", "dark")]).
  { intros v [E | []]. discriminate E. }
  split; [exact H|]. split.
  - exact (proj1 (db_name_default [("theme", "dark")]) H).
  - exact (proj2 (db_name_default
                    [("theme", "dark"); ("db_name", "inventory")])
             [("theme", "dark")] "inventory" [] eq_refl H).
Defined.

Lemma exec_admin_outcomes_witness :
  let r := exec_admin Toy.execute "DROP USER `bob`@'%';" None true [] in
  snd (value r) = None
  /\ exists rows,
       Toy.execute [] "DROP USER `bob`@'%';" (Some []) = Returned (store r) rows
       /\ fst (value r) = Some rows.
Proof.
  intros r. split; [reflexivity|].
  exact (proj1 (proj2 (proj2
           (exec_admin_outcomes Toy.execute "DROP USER `bob`@'%';" None true
              []))) eq_refl).
Defined.

Lemma get_grants_frame_witness :
  let rows := [[("Grants", "GRANT USAGE ON *.* TO `root`@`localhost`")]] in
  (Toy.execute [] (show_grants_sql "root" "localhost") None = Returned [] rows
   /\ forallb (fun r : row => negb (is_nil r)) rows = true)
  /\ value (get_grants Toy.execute "root" "localhost" [])
     = [[("Grant", "GRANT USAGE ON *.* TO `root`@`localhost`")]].
Proof.
  intros rows. split; [split; reflexivity|].
  exact (proj1 (get_grants_frame Toy.execute "root" "localhost" [] [] rows
                  eq_refl eq_refl)).
Defined.

Lemma users_list_gates_show_grants_witness :
  let denied (db : Toy.DB) (sql : string) : list row + string :=
    inr "(1142, 'SELECT command denied')" in
  let r := users_and_grants Toy.execute denied "root" "localhost" true [] in
  denied [] list_users_sql = inr "(1142, 'SELECT command denied')"
  /\ trace r = [Queried list_users_sql] /\ store r = []
  /\ screen r
     = [StWarning
          ("Could not list users (need admin privileges): "
             ++ "(1142, 'SELECT command denied')");
        StInfo
          "No users listed or insufficient privileges to read `mysql.user`."].
Proof.
  intros denied r. split; [reflexivity|].
  exact (proj1 (users_list_gates_show_grants Toy.execute denied "root"
                  "localhost" true []) _ eq_refl).
Defined.

Lemma show_grants_empty_field_witness :
  let rows := [[("User", "root"); ("Host", "localhost")]] in
  let r := press Toy.execute Toy.run_query "asi" (Btn_show_grants "" "%") [] in
  (Toy.run_query [] list_users_sql = inl rows /\ df_empty rows = false)
  /\ trace r = [Queried list_users_sql]
  /\ store r = []
  /\ screen r = [StDataframe rows].
Proof.
  intros rows r. split; [split; reflexivity|].
  exact (show_grants_empty_field Toy.execute Toy.run_query "asi" "" "%" []
           rows eq_refl eq_refl (or_introl eq_refl)).
Defined.

Lemma show_grants_failure_reported_witness :
  let rows := [[("User", "root"); ("Host", "localhost")]] in
  let r := press Toy.execute Toy.run_query "asi"
             (Btn_show_grants "nosuchdb" "%") [] in
  (Toy.run_query [] list_users_sql = inl rows /\ df_empty rows = false
   /\ Toy.execute [] (show_grants_sql "nosuchdb" "%") None
      = Raised ["SHOW GRANTS FOR `nosuchdb`@'%';"]
          "(1049, 'Unknown database')")
  /\ screen r
     = [StDataframe rows;
        StWarning
          "Could not fetch grants for nosuchdb@%: (1049, 'Unknown database')";
        StInfo "No grants returned."].
Proof.
  intros rows r. split; [repeat split|].
  exact (proj1 (show_grants_failure_reported Toy.execute Toy.run_query "asi"
                  "nosuchdb" "%" [] rows _ _ eq_refl eq_refl eq_refl eq_refl
                  eq_refl)).
Defined.

Lemma validation_decides_sending_witness :
  let b := Btn_create_user "bob" "%" "" ReadOnly in
  let r := press Toy.execute Toy.run_query "asi" b [] in
  (is_admin_button b = true /\ rejected b = true)
  /\ trace r = [] /\ store r = []
  /\ screen r = [StError "Username and password are required."].
Proof.
  intros b r.
  pose proof (validation_decides_sending Toy.execute Toy.run_query "asi" b []
                eq_refl) as H.
  split; [split; reflexivity|]. split.
  - exact (proj2 (proj1 H) eq_refl).
  - exact (proj2 H eq_refl).
Defined.

Lemma first_statement_failure_reported_witness :
  let b := Btn_selected_privileges "bob" "" "GRANT" ["SELECT"] in
  let r := press Toy.execute Toy.run_query "nosuchdb" b [] in
  let msg := "(1049, 'Unknown database')" in
  (is_admin_button b = true
   /\ trace r
      = [Executed "GRANT SELECT ON `nosuchdb`.* TO `bob`@'%';" (Some [])
           (Some msg)]
   /\ msg <> "")
  /\ store r = []
  /\ screen r = [StError "GRANT failed: (1049, 'Unknown database')"].
Proof.
  intros b r msg.
  assert (Hmsg : msg <> "") by discriminate.
  split; [repeat split; exact Hmsg|].
  exact (proj2 (first_statement_failure_reported Toy.execute Toy.run_query
                  "nosuchdb" b [] _ _ msg [] eq_refl eq_refl Hmsg)).
Defined.

Lemma error_iff_no_flush_witness :
  let b := Btn_selected_privileges "bob" "" "GRANT" ["SELECT"] in
  let r := press Toy.execute Toy.run_query "nosuchdb" b [] in
  (is_admin_button b = true /\ flushes (trace r) = 0)
  /\ existsb is_error (screen r) = true.
Proof.
  intros b r. split; [split; reflexivity|].
  exact (proj2 (proj1 (error_iff_no_flush Toy.execute Toy.run_query
                         "nosuchdb" b [] eq_refl)) eq_refl).
Defined.

Lemma all_failed_store_untouched_witness :
  let b := Btn_selected_privileges "bob" "" "REVOKE" ["SELECT"] in
  let r := press Toy.execute Toy.run_query "nosuchdb" b [] in
  (forall e, In e (trace r) -> failed e = true \/ is_query e = true)
  /\ store r = [].
Proof.
  intros b r.
  assert (H : forall e, In e (trace r) -> failed e = true \/ is_query e = true).
  { intros e [<- | []]. left. reflexivity. }
  split; [exact H|].
  exact (all_failed_store_untouched Toy.execute Toy.run_query "nosuchdb" b []
           H).
Defined.

Lemma empty_error_text_taken_for_success_witness :
  let mute (db : Toy.DB) (sql : string) (args : option (list string))
      : outcome Toy.DB := Raised db "" in
  let b := Btn_drop_user "bob" "%" in
  let r := press mute Toy.run_query "asi" b [] in
  (is_admin_button b = true
   /\ trace r
      = [Executed "DROP USER `bob`@'%';" (Some []) (Some "");
         Executed "FLUSH PRIVILEGES;" (Some []) (Some "");
         Queried list_users_sql])
  /\ exists m more, screen r = StSuccess m :: more.
Proof.
  intros mute b r. split; [split; reflexivity|].
  exact (proj1 (proj2 (empty_error_text_taken_for_success mute Toy.run_query
                         "asi" b [] _ _ _ eq_refl eq_refl))).
Defined.

Lemma list_refresh_after_success_witness :
  let b := Btn_drop_user "bob" "%" in
  let r := press Toy.execute Toy.run_query "asi" b [] in
  (is_admin_button b = true
   /\ refreshes_list b = true /\ flushes (trace r) <> 0)
  /\ existsb is_query (trace r) = true.
Proof.
  intros b r.
  assert (Hf : flushes (trace r) <> 0) by discriminate.
  split; [repeat split; exact Hf|].
  exact (proj2 (proj1 (list_refresh_after_success Toy.execute Toy.run_query
                         "asi" b [] eq_refl)) (conj eq_refl Hf)).
Defined.

Lemma create_user_presets_witness :
  let r := create_user_handler Toy.execute Toy.run_query "asi" "app_user" ""
             "pw" Admin [] in
  (Py.truthy (sanitize_user "app_user") = true /\ Py.truthy "pw" = true
   /\ existsb failed (trace r) = false)
  /\ map event_sql (trace r)
     = ["CREATE USER `app_user`@'%' IDENTIFIED BY %s;";
        "GRANT ALL PRIVILEGES ON `asi`.* TO `app_user`@'%';";
        "FLUSH PRIVILEGES;"; list_users_sql].
Proof.
  intros r. split; [repeat split|].
  exact (proj1 (proj2 (proj2
           (create_user_presets Toy.execute Toy.run_query "asi" "app_user" ""
              "pw" Admin [] eq_refl eq_refl eq_refl))) eq_refl).
Defined.

Lemma single_statement_success_witness :
  let b := Btn_update_password "bob" "localhost" "pw" in
  let r := press Toy.execute Toy.run_query "asi" b [] in
  (Py.truthy (sanitize_user "bob") = true /\ Py.truthy "pw" = true
   /\ ["SELECT"] <> [] /\ existsb failed (trace r) = false)
  /\ map event_sql (trace r)
     = ["ALTER USER `bob`@'localhost' IDENTIFIED BY %s;"; "FLUSH PRIVILEGES;"]
  /\ screen r = [StSuccess "Password updated for `bob`@'localhost'."].
Proof.
  intros b r.
  assert (Hp : ["SELECT"] <> @nil string) by discriminate.
  split; [repeat split; exact Hp|].
  exact (proj1 (single_statement_success Toy.execute Toy.run_query "asi"
                  "bob" "localhost" "pw" "GRANT" ["SELECT"] [] eq_refl
                  eq_refl Hp) eq_refl).
Defined.

Lemma revoke_privileges_statement_witness :
  (Py.truthy (sanitize_user "bob") = true /\ "REVOKE" <> "GRANT")
  /\ exists err,
       filter is_mutating
         (trace (press Toy.execute Toy.run_query "asi"
                   (Btn_selected_privileges "bob" "%" "REVOKE"
                      ["INSERT"; "DELETE"]) []))
       = [Executed "REVOKE INSERT, DELETE ON `asi`.* FROM `bob`@'%';"
            (Some []) err].
Proof.
  assert (Ha : "REVOKE" <> "GRANT") by discriminate.
  split; [split; [reflexivity | exact Ha]|].
  exact (revoke_privileges_statement Toy.execute Toy.run_query "asi" "bob"
           "%" "REVOKE" "INSERT" ["DELETE"] [] eq_refl Ha).
Defined.

Lemma admin_statements_identifier_alphabet_witness :
  let b := Btn_drop_user "bob'; --" "%" in
  let e := Executed "DROP USER `bob`@'%';" (Some []) None in
  (is_admin_button b = true
   /\ In e (trace (press Toy.execute Toy.run_query "asi" b [])))
  /\ exists u h,
       chars_in name_alphabet u /\ chars_in host_alphabet h
       /\ built_from "asi" u h (event_sql e).
Proof.
  intros b e.
  assert (He : In e (trace (press Toy.execute Toy.run_query "asi" b [])))
    by (left; reflexivity).
  split; [split; [reflexivity | exact He]|].
  exact (admin_statements_identifier_alphabet Toy.execute Toy.run_query "asi"
           b [] e eq_refl He).
Defined.

Lemma grant_failure_with_empty_text_unreported_witness :
  let refuse_grants (db : Toy.DB) (sql : string)
      (args : option (list string)) : outcome Toy.DB :=
    if String.prefix "GRANT" sql then Raised db ""
    else Returned (db ++ [sql]) [] in
  let r := create_user_handler refuse_grants Toy.run_query "asi" "bob" "%"
             "pw" ReadOnly [] in
  (trace r
   = [Executed "CREATE USER `bob`@'%' IDENTIFIED BY %s;" (Some ["pw"]) None;
      Executed "GRANT SELECT ON `asi`.* TO `bob`@'%';" (Some []) (Some "");
      Executed "FLUSH PRIVILEGES;" (Some []) None;
      Queried list_users_sql]
   /\ String.prefix "GRANT" "GRANT SELECT ON `asi`.* TO `bob`@'%';" = true)
  /\ existsb is_error (screen r) = false
  /\ screen r
     = [StSuccess "User `bob`@'%' created.";
        StSuccess "Preset 'Read-only (SELECT)' applied on `asi`.*"].
Proof.
  intros refuse_grants r. split; [split; reflexivity|].
  pose proof (grant_failure_with_empty_text_unreported refuse_grants
                Toy.run_query "asi" "bob" "%" "pw" ReadOnly [] _ _ _ _ _
                eq_refl eq_refl) as H.
  split; [exact (proj1 H) | exact (proj1 (proj2 H))].
Defined.

